(** * cesqpos: the ESC/POS command encoder

    A shallow embedding of the encoder functions of [EscPosEncoder.ts] and
    [barcodes.ts], and the properties of their byte sequences.

    Conventions of the embedding:
    - a JavaScript [number] that the encoder receives is an integer, a [Z];
      the arithmetic and bit operators are written out on [Z], with the
      32-bit wrap-around of the bit operators made explicit ([toInt32]);
    - a JavaScript string is a Rocq [string];
    - an optional parameter with a default value is an [option], [None]
      being the omitted argument;
    - a call either returns its array or throws: [result] carries the
      returned value or the exception, and an [AssertionError] records the
      text of the assertion that failed. *)

From Stdlib Require Import ZArith Lia Ascii String.
From stdpp Require Import base option list gmap strings.

Local Open Scope Z_scope.

(** ** The fragment of the JavaScript runtime the encoder relies on *)
Module Js.

(** The outcome of a call: a returned value, a failed [assert(...)] of
    [node:assert/strict], or a thrown [Error]. *)
Inductive result (A : Type) : Type :=
| Ok (a : A)
| AssertionError (expr : string)
| Error (msg : string).
Arguments Ok {A} a.
Arguments AssertionError {A} expr.
Arguments Error {A} msg.

#[global] Instance result_ret : MRet result := fun _ a => Ok a.
#[global] Instance result_bind : MBind result := fun _ _ f m =>
  match m with
  | Ok a => f a
  | AssertionError e => AssertionError e
  | Error e => Error e
  end.

(** [assert(cond)]: returns when [cond] holds, throws otherwise. *)
Definition assert (cond : bool) (expr : string) : result unit :=
  if cond then Ok tt else AssertionError expr.

Definition is_ok {A} (r : result A) : bool :=
  match r with Ok _ => true | _ => false end.

(** An element of a returned array: a number, [undefined], or an object
    (a function or object inherited from [Object.prototype]). *)
Inductive jsval : Type :=
| JNum (n : Z)
| JUndefined
| JObject.

#[global] Instance jsval_eq_dec : EqDecision jsval.
Proof. solve_decision. Defined.

(** The property names every object literal inherits from
    [Object.prototype]. *)
Definition objectPrototypeKeys : list string :=
  [ "constructor"; "toString"; "toLocaleString"; "valueOf";
    "hasOwnProperty"; "isPrototypeOf"; "propertyIsEnumerable";
    "__proto__"; "__defineGetter__"; "__defineSetter__";
    "__lookupGetter__"; "__lookupSetter__" ].

(** [map[key]] on an object literal whose own properties are [map]. *)
Definition getProp (map : gmap string Z) (key : string) : jsval :=
  match map !! key with
  | Some v => JNum v
  | None => if bool_decide (key ∈ objectPrototypeKeys) then JObject else JUndefined
  end.

(** ToInt32 on an integer: reduction modulo 2^32 into [-2^31, 2^31). *)
Definition toInt32 (n : Z) : Z := (n + 2 ^ 31) mod 2 ^ 32 - 2 ^ 31.

(** ToInt32 on a value: [undefined], functions and plain objects convert
    to NaN, and NaN to 0. *)
Definition valToInt32 (v : jsval) : Z :=
  match v with
  | JNum n => toInt32 n
  | JUndefined | JObject => 0
  end.

(** [a & b] *)
Definition bitAnd (a b : Z) : Z := Z.land (toInt32 a) (toInt32 b).

(** [a & v] for a looked-up value [v] *)
Definition bitAndVal (a : Z) (v : jsval) : Z := Z.land (toInt32 a) (valToInt32 v).

(** [a << k] *)
Definition shl (a k : Z) : Z := toInt32 (Z.shiftl (toInt32 a) (k mod 32)).

(** [a % b]: the remainder takes the sign of the dividend. *)
Definition remainder (a b : Z) : Z := Z.rem a b.

(** [Math.floor(a / b)] and [Math.ceil(a / b)] on integers. *)
Definition floorDiv (a b : Z) : Z := a / b.
Definition ceilDiv (a b : Z) : Z := - ((- a) / b).

(** [+b] on a boolean *)
Definition boolToNum (b : bool) : Z := if b then 1 else 0.

(** The truthiness of a number: every integer but 0. *)
Definition truthy (x : Z) : bool := negb (x =? 0).

(** [xs.length] *)
Definition len {A} (xs : list A) : Z := Z.of_nat (length xs).

(** [s.length] *)
Definition strlen (s : string) : Z := Z.of_nat (String.length s).

(** [xs.slice(i, j)] for [0 <= i <= j] *)
Definition slice {A} (xs : list A) (i j : nat) : list A :=
  take (j - i) (drop i xs).

(** [xs.indexOf(x)]: the first index of [x], or -1. *)
Fixpoint indexOfFrom {A} `{EqDecision A} (xs : list A) (x : A) (i : Z) : Z :=
  match xs with
  | [] => -1
  | y :: ys => if decide (y = x) then i else indexOfFrom ys x (i + 1)
  end.
Definition indexOf {A} `{EqDecision A} (xs : list A) (x : A) : Z :=
  indexOfFrom xs x 0.

(** [s.includes(sub)]: [sub] occurs in [s] as a substring. *)
Fixpoint includes (s sub : string) : bool :=
  String.prefix sub s ||
  match s with
  | EmptyString => false
  | String _ s' => includes s' sub
  end.

(** [c.charCodeAt(0)] of a one-character string. *)
Definition charCode (c : ascii) : Z := Z.of_nat (nat_of_ascii c).

(** [s.split('')]: the characters of [s]. *)
Definition splitChars (s : string) : list ascii := list_ascii_of_string s.

(** [xs.join('')] on an array of numbers that are 0 or 1. *)
Definition digitString (x : Z) : string := if x =? 0 then "0" else "1".
Definition joinDigits (xs : list Z) : string :=
  foldr (fun x acc => digitString x +:+ acc) "" xs.

(** [s.padEnd(n, '0')] *)
Definition padEnd0 (s : string) (n : nat) : string :=
  s +:+ string_of_list_ascii (replicate (n - String.length s) "0"%char).

(** [parseInt(s, 2)]: the leading binary digits of [s] read as a number;
    [None] is NaN, when [s] does not start with a binary digit. *)
Fixpoint parseBinaryFrom (s : string) (acc : Z) : Z :=
  match s with
  | String "0" s' => parseBinaryFrom s' (2 * acc)
  | String "1" s' => parseBinaryFrom s' (2 * acc + 1)
  | _ => acc
  end.
Definition parseInt2 (s : string) : option Z :=
  match s with
  | String "0" _ | String "1" _ => Some (parseBinaryFrom s 0)
  | _ => None
  end.

End Js.
Import Js.

(** ** EscPosEncoder.ts *)
Module EscPosEncoder.

Definition LF : Z := 0x0a.
Definition ESC : Z := 0x1b.
Definition FS : Z := 0x1c.
Definition GS : Z := 0x1d.

Definition fontMap : gmap string Z :=
  list_to_map [ ("A", 0); ("B", 1) ].

(** Splits a number into its low and high byte. *)
Definition byteSplit (n : Z) : result (list Z) :=
  assert (0 <=? n) "n >= 0" ;;
  assert (n <=? 65535) "n <= 65535" ;;
  let highByte := floorDiv n 256 in
  let lowByte := remainder n 256 in
  mret [lowByte; highByte].

(** ESC SP *)
Definition setRightSideCharacterSpacing (n : option Z) : result (list Z) :=
  let n := default 0 n in
  assert ((0 <? n) && (n <=? 255)) "n > 0 && n <= 255" ;;
  mret [ESC; 0x20; n].

(** ESC ! *)
Definition selectPrintModes (font : string)
    (emphasised doubleHeight doubleWidth underline : option bool)
    : result (list Z) :=
  let emphasised := default false emphasised in
  let doubleHeight := default false doubleHeight in
  let doubleWidth := default false doubleWidth in
  let underline := default false underline in
  let n := 0 in
  let n := bitAndVal n (getProp fontMap font) in
  let n := bitAnd n (shl (boolToNum emphasised) 3) in
  let n := bitAnd n (shl (boolToNum doubleHeight) 4) in
  let n := bitAnd n (shl (boolToNum doubleWidth) 5) in
  let n := bitAnd n (shl (boolToNum underline) 7) in
  mret [ESC; 0x20; n].

(** ESC * *)
Definition selectBitImageMode (verticalDensity : option Z)
    (horizontalDensity : option string) (data : list Z) : result (list Z) :=
  let verticalDensity := default 8 verticalDensity in
  let horizontalDensity := default "single" horizontalDensity in
  assert ((verticalDensity =? 8) || (verticalDensity =? 24))
         "verticalDensity == 8 || verticalDensity == 24" ;;
  (* assert(Array.isArray(data)) holds of every [list] *)
  (if verticalDensity =? 24
   then assert (remainder (len data) 3 =? 0) "data.length % 3 == 0"
   else mret tt) ;;
  (* the division is exact: by 1, or by 3 after the assertion above *)
  let value := len data / (if verticalDensity =? 8 then 1 else 3) in
  let m := (if verticalDensity =? 8 then 0 else 32)
           + (if bool_decide (horizontalDensity = "single") then 0 else 1) in
  nLnH ← byteSplit value ;
  mret ([ESC; 0x2a; m] ++ nLnH ++ data).

(** ESC M *)
Definition selectFont (font : string) : result (list jsval) :=
  mret [JNum ESC; JNum 0x4d; getProp fontMap font].

(** ESC R *)
Definition internationalCharacterSetMap : gmap string Z :=
  list_to_map
    [ ("usa", 0); ("france", 1); ("germany", 2); ("uk", 3);
      ("denmark-1", 4); ("sweden", 5); ("italy", 6); ("spain-1", 7);
      ("japan", 8); ("norway", 9); ("denmark-2", 10); ("spain-2", 11);
      ("latin-america", 12); ("korea", 13); ("slovenia-croatia", 14);
      ("china", 15) ].

Definition selectInternationalCharacterSet (characterSet : string)
    : result (list jsval) :=
  let map := internationalCharacterSetMap in
  mret [JNum ESC; JNum 0x52; getProp map characterSet].

(** ESC \ *)
Definition setRelativePrintPosition (d : Z) : result (list Z) :=
  assert (-32768 <=? d) "d >= -32768" ;;
  assert (d <=? 32767) "d <= 32767" ;;
  let normalised := d + 32768 in
  nLnH ← byteSplit normalised ;
  mret ([ESC; 0x5C] ++ nLnH).

(** ESC a *)
Definition selectJustification (justification : option string)
    : result (list Z) :=
  let justification := default "left" justification in
  let justifications := ["left"; "centered"; "right"] in
  assert (includes justification justification)
         "justification.includes(justification)" ;;
  let value := indexOf justifications justification in
  mret [ESC; 0x61; value].

(** ESC t *)
Definition characterCodeTableMap : gmap string Z :=
  list_to_map
    [ ("pc437-usa-standard-europe", 0); ("katakana", 1);
      ("pc850-multilingual", 2); ("pc860-portuguese", 3);
      ("pc863-canadian-french", 4); ("pc865-nordic", 5);
      ("wpc1252", 16); ("pc866-cyrillic-2", 17); ("pc852-latin-2", 18);
      ("pc858-euro", 19); ("page-255", 255) ].

Definition selectCharacterCodeTable (table : string) : result (list jsval) :=
  let map := characterCodeTableMap in
  mret [JNum ESC; JNum 0x74; getProp map table].

(** GS ! *)
Definition selectCharacterSize (width height : option Z) : result (list Z) :=
  let width := default 1 width in
  let height := default 1 height in
  assert (1 <=? width) "width >= 1" ;;
  assert (width <=? 8) "width <= 8" ;;
  assert (1 <=? height) "height >= 1" ;;
  assert (height <=? 8) "height <= 8" ;;
  let widthValue := 16 * (width - 1) in
  let heightValue := 16 * (height - 1) in
  let n := shl widthValue 4 + heightValue in
  mret [GS; 0x21; n].

(** GS H *)
Definition printPositionOfHriCharactersMap : gmap string Z :=
  list_to_map [ ("none", 0); ("above", 1); ("below", 2); ("both", 3) ].

Definition selectPrintPositionOfBarcodeHriCharacters (position : string)
    : result (list jsval) :=
  let map := printPositionOfHriCharactersMap in
  mret [JNum GS; JNum 0x48; getProp map position].

(** GS V.  The first component is what the call writes with
    [console.log]. *)
Definition cut (feedVertical : option Z) : list string * result (list Z) :=
  let feedVertical := default 0 feedVertical in
  match assert (0 <=? feedVertical) "feedVertical >= 0" ;;
        assert (feedVertical <=? 255) "feedVertical <= 255" with
  | Ok _ =>
      if 0 <? feedVertical
      then ([], Ok [GS; 0x56; 65; feedVertical])
      else (["check if this is doing a full cut or partial"],
            Ok [GS; 0x56; 1])
  | AssertionError e => ([], AssertionError e)
  | Error e => ([], Error e)
  end.

(** GS \ *)
Definition setRelativeVerticalPrintPositionInPageMode (d : Z)
    : result (list Z) :=
  assert (-32768 <=? d) "d >= -32768" ;;
  assert (d <=? 32767) "d <= 32767" ;;
  let normalised := d + 32768 in
  nLnH ← byteSplit normalised ;
  mret ([GS; 0x5C] ++ nLnH).

(** GS f *)
Definition selectFontForBarcodeHriCharacters (font : string)
    : result (list jsval) :=
  mret [JNum GS; JNum 0x66; getProp fontMap font].

(** GS v 0: the packing of one row.  [packByte] is the body of the inner
    loop: the eight pixels from index [i] as a string of binary digits,
    padded and parsed.  A string that [parseInt] cannot read (NaN) does not
    arise, see [packByte_parses]. *)
Definition binaryOfSlice (row : list Z) (i : nat) : string :=
  padEnd0
    (joinDigits (map (fun x => if truthy x then 1 else 0) (slice row i (i + 8))))
    8.

Definition packByte (row : list Z) (i : nat) : Z :=
  default 0 (parseInt2 (binaryOfSlice row i)).

(** [for (let i = 0; i < row.length; i += 8) a.push(n)]: [fuel] bounds the
    number of iterations, and [packRow] gives one per pixel, more than the
    loop takes. *)
Fixpoint packRowFrom (fuel : nat) (row : list Z) (i : nat) (a : list Z)
    : list Z :=
  match fuel with
  | O => a
  | S fuel' =>
      if (i <? length row)%nat
      then packRowFrom fuel' row (i + 8) (a ++ [packByte row i])
      else a
  end.

Definition packRow (row : list Z) (a : list Z) : list Z :=
  packRowFrom (length row) row 0 a.

(** [for (const row of data) ...] *)
Definition packRows (data : list (list Z)) (a : list Z) : list Z :=
  foldl (fun a row => packRow row a) a data.

(** GS v 0 *)
Definition printRasterBitImage (data : list (list Z))
    (verticalScale horizontalScale : option Z) : result (list Z) :=
  let verticalScale := default 1 verticalScale in
  let horizontalScale := default 1 horizontalScale in
  assert (1 <=? len data) "data.length >= 1" ;;
  assert (len data <? 65536) "data.length < 65536" ;;
  match data with
  | [] => Error "TypeError: data[0] is undefined"
  | row0 :: _ =>
      assert (1 <=? len row0) "data[0]!.length >= 1" ;;
      assert (len row0 <? 65536) "data[0]!.length < 65536" ;;
      assert (forallb (fun line => len line =? len row0) data)
             "data.every(line => data[0] && line.length == data[0].length)" ;;
      let widthInBytes := ceilDiv (len row0) 8 in
      let heightInDots := len data in
      let m := (verticalScale - 1) * 2 + (horizontalScale - 1) in
      let a := packRows data [] in
      wLwH ← byteSplit widthInBytes ;
      hLhH ← byteSplit heightInDots ;
      mret ([GS; 0x76; 0x30; m] ++ wLwH ++ hLhH ++ a)
  end.

(** *** The other commands of the encoder *)

(** ESC $ *)
Definition setAbsolutePrintPosition (value : Z) : result (list Z) :=
  nLnH ← byteSplit value ;
  mret ([ESC; 0x24] ++ nLnH).

(** ESC & : the cell [character?.[y]?.[x] ?? 0] of a glyph. *)
Definition glyphCell (character : list (list Z)) (y x : nat) : Z :=
  match character !! y with
  | Some line => default 0 (line !! x)
  | None => 0
  end.

(** The two nested loops over [x] and [y], both up to
    [character[0].length], pushing one cell each. *)
Definition glyphColumns (character : list (list Z)) (w : nat) (a : list Z)
    : list Z :=
  foldl (fun a x =>
           foldl (fun a y => a ++ [glyphCell character y x]) a (seq 0 w))
        a (seq 0 w).

(** [for (const character of data) ...] *)
Fixpoint glyphLoop (data : list (list (list Z))) (a : list Z)
    : result (list Z) :=
  match data with
  | [] => Ok a
  | character :: rest =>
      match character !! 0%nat with
      | None => Error "malformed character data in defineUserDefinedCharacterSet"
      | Some line0 =>
          glyphLoop rest (glyphColumns character (length line0) (a ++ [len line0]))
      end
  end.

Definition defineUserDefinedCharacterSet
    (verticalBytes characterCodeRangeStart characterCodeRangeEnd : Z)
    (data : list (list (list Z))) : result (list Z) :=
  assert (32 <=? characterCodeRangeStart) "characterCodeRangeStart >= 32" ;;
  assert (characterCodeRangeEnd <=? 126) "characterCodeRangeEnd <= 126" ;;
  assert (characterCodeRangeEnd <=? characterCodeRangeEnd)
         "characterCodeRangeEnd >= characterCodeRangeEnd" ;;
  (* assert(Array.isArray(data)) holds of every [list] *)
  assert (len data <=? 255) "data.length <= 255" ;;
  assert (len data =? (characterCodeRangeEnd - characterCodeRangeEnd) + 1)
         "data.length == ((characterCodeRangeEnd - characterCodeRangeEnd) + 1)" ;;
  assert (forallb (fun character => len character =? verticalBytes) data)
         "data.every(character => character.length == verticalBytes)" ;;
  assert (forallb
            (fun character =>
               forallb (fun line =>
                          match character !! 0%nat with
                          | Some line0 => len line =? len line0
                          | None => false
                          end)
                       character)
            data)
         "data.every(character => character.every(line => character[0] && line.length == character[0].length))" ;;
  a ← glyphLoop data [] ;
  mret ([ESC; 0x26; verticalBytes; characterCodeRangeStart;
         characterCodeRangeEnd] ++ a).

(** ESC - *)
Definition underline (enable : option bool) (thickness : option Z)
    : result (list Z) :=
  let enable := default false enable in
  let thickness := default 1 thickness in
  assert ((0 <? thickness) && (thickness <=? 2))
         "thickness > 0 && thickness <= 2" ;;
  if enable then mret [ESC; 0x2d; thickness] else mret [ESC; 0x2d; 0].

(** ESC 2 *)
Definition selectDefaultLineSpacing : result (list Z) := mret [ESC; 0x32].

(** ESC 3 *)
Definition setLineSpacing (units : option Z) : result (list Z) :=
  match units with
  | None => selectDefaultLineSpacing
  | Some units =>
      assert (0 <=? units) "units >= 0" ;;
      assert (units <=? 255) "units <= 255" ;;
      mret [ESC; 0x33; units]
  end.

(** ESC ? *)
Definition cancelUserDefinedCharacters (n : Z) : result (list Z) :=
  assert (32 <=? n) "n >= 32" ;;
  assert (n <=? 126) "n <= 126" ;;
  mret [ESC; 0x3F; n].

Definition DEFAULT_TAB_STOPS : list Z :=
  [8; 16; 24; 32; 40; 48; 56; 64; 72; 80; 88; 96; 104; 112; 120; 128; 136;
   144; 152; 160; 168; 176; 184; 192; 200; 208; 216; 224; 232; 240; 248].

(** ESC D *)
Definition setHorizontalTabPositions (tabStops : option (list Z))
    : result (list Z) :=
  let tabStops := default DEFAULT_TAB_STOPS tabStops in
  (* assert(Array.isArray(tabStops)) holds of every [list] *)
  assert (len tabStops <=? 32) "tabStops.length <= 32" ;;
  assert (forallb (fun stop => (1 <=? stop) && (stop <=? 255)) tabStops)
         "tabStops.every(stop => stop >= 1 && stop <= 255)" ;;
  mret ([ESC; 0x44] ++ tabStops ++ [0]).

(** ESC J *)
Definition printAndFeedPaper (n : option Z) : result (list Z) :=
  let n := default 0 n in
  assert (0 <=? n) "n >= 0" ;;
  assert (n <=? 255) "n <= 255" ;;
  mret [ESC; 0x4a; n].

(** ESC T *)
Definition selectPrintDirectionInPageMode (n : Z) : result (list Z) :=
  assert (0 <? n) "n > 0" ;;
  assert (n <=? 3) "n <= 3" ;;
  mret [ESC; 0x54; n].

(** ESC W *)
Definition setPrintAreaInPageMode (originX originY width height : Z)
    : result (list Z) :=
  xLxH ← byteSplit originX ;
  yLyH ← byteSplit originY ;
  dxLdxH ← byteSplit width ;
  dyLdyH ← byteSplit height ;
  mret ([ESC; 0x57] ++ xLxH ++ yLyH ++ dxLdxH ++ dyLdyH).

(** ESC d *)
Definition printAndFeedLines (n : Z) : result (list Z) :=
  assert (0 <? n) "n > 0" ;;
  assert (n <=? 255) "n <= 255" ;;
  mret [ESC; 0x64; n].

(** GS $ *)
Definition setAbsoluteVerticalPrintPositionInPageMode (n : Z)
    : result (list Z) :=
  nLnH ← byteSplit n ;
  mret ([GS; 0x24] ++ nLnH).

(** GS L *)
Definition setLeftMargin (n : Z) : result (list Z) :=
  nLnH ← byteSplit n ;
  mret ([GS; 0x4C] ++ nLnH).

(** GS P *)
Definition setHorizontalAndVerticalMotionUnits (x y : Z) : result (list Z) :=
  assert (0 <? x) "x > 0" ;;
  assert (x <=? 255) "x <= 255" ;;
  assert (0 <? y) "y > 0" ;;
  assert (y <=? 255) "y <= 255" ;;
  mret [GS; 0x50; x; y].

(** GS W *)
Definition setPrintAreaWidth (width : option Z) : result (list Z) :=
  let width := default 0 width in
  nLnH ← byteSplit width ;
  mret ([GS; 0x57] ++ nLnH).

(** GS h *)
Definition setBarcodeHeight (n : Z) : result (list Z) :=
  assert (1 <=? n) "n >= 1" ;;
  assert (n <=? 255) "n <= 255" ;;
  mret [GS; 0x68; n].

End EscPosEncoder.

(** ** barcodes.ts *)
Module Barcodes.

Definition GS : Z := 0x1d.
Definition k : Z := 0x6b.

Definition splitToCharCodes (s : string) : list Z :=
  map charCode (splitChars s).

(** Prints a UPC-A barcode. *)
Definition printBarcodeUpcA (data : string) : result (list Z) :=
  assert (strlen data =? 11) "data.length == 11" ;;
  let codes := splitToCharCodes data in
  assert (forallb (fun charCode => (48 <=? charCode) && (charCode <=? 57)) codes)
         "codes.every(charCode => charCode >= 48 && charCode <= 57)" ;;
  mret ([GS; k; 65; len codes] ++ codes).

End Barcodes.

(** ** utils/convertImageToRasterBitImage.ts *)
Module ConvertImage.

(** The fields of a decoded PNG that the conversion reads: the dimensions
    and the buffer of RGBA bytes. *)
Record PNGWithMetadata : Type := {
  png_width : nat;
  png_height : nat;
  png_data : list Z
}.

(** The body of the inner loop: the cell pushed for pixel ([x], [y]).  A
    read past the end of the buffer is [undefined], which [??] turns to 0. *)
Definition cellOf (png : PNGWithMetadata) (y x : nat) : Z :=
  let i := ((y * png_width png + x) * 4)%nat in
  let r := png_data png !! i in
  let value := default 0 r in
  if value =? 0 then 1 else 0.

Definition convertImageToRasterBitImage (png : PNGWithMetadata)
    : list (list Z) :=
  foldl (fun data y =>
           data ++ [foldl (fun row x => row ++ [cellOf png y x])
                          [] (seq 0 (png_width png))])
        [] (seq 0 (png_height png)).

End ConvertImage.

(** ** EscPosUSB.ts *)
Module EscPosUSB.

(** What the [usb] library shows of the bus.  An interface is described by
    the exception its [claim()] throws, if it throws, and by its endpoints; a
    device by its identity, the exception of its [open()], the value of its
    [interfaces] once opened ([None] is [undefined]) and the exception of its
    [close()]. *)
Record Endpoint : Type := {
  direction : string;
  endpointAddress : Z
}.

Record Interface : Type := {
  claimThrows : option string;
  endpoints : list Endpoint
}.

Record Device : Type := {
  deviceId : Z;
  openThrows : option string;
  interfaces : option (list Interface);
  closeThrows : option string
}.

(** What a method does to the outside, in order: a call of the caller's
    callback [f] with an error or with no argument, a line on the console,
    and the calls into the library. *)
Inductive Event : Type :=
| Call (f : nat) (e : option string)
| ConsoleError (e : string)
| DeviceOpen
| Claim (i : nat)
| Transfer (ep : Endpoint) (data : list Z) (callback : option nat)
| DeviceClose
| RemoveAllListeners.

(** The two fields of the object. *)
Record EscPosUSB : Type := {
  device : option Device;
  endpoint : option Endpoint
}.

(** [logError(e)] *)
Definition logError (e : option string) : list Event :=
  match e with
  | Some m => [ConsoleError m]
  | None => []
  end.

(** [cb(e)] for [cb = callback ?? this.logError] *)
Definition invoke (callback : option nat) (e : option string) : list Event :=
  match callback with
  | Some f => [Call f e]
  | None => logError e
  end.

(** The constructor; [findByIds] is the library's lookup on the bus. *)
Definition new (findByIds : Z -> Z -> option Device) (vid pid : option Z)
    : EscPosUSB :=
  {| device := findByIds (default 0x4b8 vid) (default 0x202 pid);
     endpoint := None |}.

(** The listener the constructor registers for ['detach']. *)
Definition onDetach (this : EscPosUSB) (detached : Device) : EscPosUSB :=
  match device this with
  | Some d =>
      if bool_decide (deviceId detached = deviceId d)
      then {| device := None; endpoint := endpoint this |}
      else this
  | None => this
  end.

(** [iface.endpoints.find(x => x.direction == 'out')] *)
Definition findOut (eps : list Endpoint) : option Endpoint :=
  List.find (fun x => bool_decide (direction x = "out")) eps.

(** The loop of [open] over the interfaces from number [i] on: the object
    after it and what it did. *)
Fixpoint claimLoop (ifaces : list Interface) (i : nat) (this : EscPosUSB)
    (callback : option nat) : EscPosUSB * list Event :=
  match ifaces with
  | [] => (this, [])
  | iface :: rest =>
      match claimThrows iface with
      | Some e =>
          let '(this', events) := claimLoop rest (S i) this callback in
          (this', [Claim i] ++ invoke callback (Some e) ++ events)
      | None =>
          match findOut (endpoints iface) with
          | Some ep =>
              ({| device := device this; endpoint := Some ep |},
               [Claim i] ++ invoke callback None)
          | None =>
              let '(this', events) := claimLoop rest (S i) this callback in
              (this', [Claim i] ++ events)
          end
      end
  end.

(** [open(callback)]: the object after the call, what the call did, and the
    exception it throws, if any. *)
Definition open (this : EscPosUSB) (callback : option nat)
    : EscPosUSB * list Event * option string :=
  match device this with
  | None =>
      (this,
       invoke callback (Some "tried to open device, but device is not set"),
       None)
  | Some d =>
      match openThrows d with
      | Some e => (this, [DeviceOpen], Some e)
      | None =>
          match interfaces d with
          | None =>
              (this,
               [DeviceOpen]
               ++ invoke callback
                    (Some "selected device has no interfaces to open"),
               None)
          | Some ifaces =>
              let '(this', events) := claimLoop ifaces 0 this callback in
              (this',
               [DeviceOpen] ++ events
               ++ match endpoint this' with
                  | None =>
                      invoke callback
                        (Some "couldn't find endpoint from device")
                  | Some _ => []
                  end,
               None)
          end
      end
  end.

(** [write(data, callback)] changes no field. *)
Definition write (this : EscPosUSB) (data : list Z) (callback : option nat)
    : list Event :=
  match endpoint this with
  | None => invoke callback (Some "tried to write, but endpoint is not set")
  | Some ep => [Transfer ep data callback]
  end.

(** [close(callback)] changes no field. *)
Definition close (this : EscPosUSB) (callback : option nat) : list Event :=
  match device this with
  | None => invoke callback None
  | Some d =>
      match closeThrows d with
      | None => [DeviceClose; RemoveAllListeners] ++ invoke callback None
      | Some e => [DeviceClose] ++ invoke callback (Some e)
      end
  end.

End EscPosUSB.

(** ** The printer's reading of the parameters *)
Module Wire.
Import EscPosEncoder.

(** A two-byte field is read as nL + nH × 256. *)
Definition compose (lo hi : Z) : Z := lo + 256 * hi.

(** A byte of the wire. *)
Definition isByte (b : Z) : Prop := 0 <= b < 256.

(** The pixel of a grid at row [r] and column [c]: printed when the cell
    is there and truthy. *)
Definition pixelAt (data : list (list Z)) (r c : nat) : bool :=
  match data !! r with
  | Some row => match row !! c with Some x => truthy x | None => false end
  | None => false
  end.

(** An encoder of an enumerated choice that looks [name] up in [table] and
    validates nothing: every name yields the opcode and one more element,
    which is a number exactly for the names of the table, and then the
    table's wire value. *)
Definition looksUp (enc : string -> result (list jsval)) (opcode : list Z)
    (table : gmap string Z) : Prop :=
  forall name : string, exists v : jsval,
    enc name = Ok (map JNum opcode ++ [v])
    /\ forall w : Z, v = JNum w <-> table !! name = Some w.

(** The fields of ESC * in the words of the protocol description: the
    number of columns of a strip, and the mode byte. *)
Definition columnCount (density stripLength : Z) : Z :=
  stripLength / (if density =? 8 then 1 else 3).

Definition modeByte (density : Z) (horizontalDensity : string) : Z :=
  (if density =? 24 then 32 else 0)
  + (if bool_decide (horizontalDensity = "double") then 1 else 0).

(** A list of bits as a string of binary digits, and as the number it
    denotes, most significant bit first. *)
Definition bitString (bs : list bool) : string :=
  foldr (fun (b : bool) acc => String (if b then "1" else "0")%char acc)
        EmptyString bs.

Definition bitsValue (bs : list bool) : Z :=
  foldl (fun acc (b : bool) => 2 * acc + Z.b2z b) 0 bs.

(** The eight bits of the byte that starts at pixel [i] of a row: the
    pixels that are there, then blanks. *)
Definition byteBits (row : list Z) (i : nat) : list bool :=
  (truthy <$> take 8 (drop i row))
  ++ replicate (8 - length (truthy <$> take 8 (drop i row))) false.

(** The bytes of a row, one for every eight pixels. *)
Definition rowBytes (row : list Z) : list Z :=
  (fun j : nat => packByte row (8 * j)) <$> seq 0 ((length row + 7) / 8).

(** An ASCII digit, by its character code. *)
Definition isDigitChar (c : ascii) : Prop := 0x30 <= charCode c <= 0x39.

End Wire.
Import Wire.

(** ** How a reader of the byte stream takes the parameters apart *)
Module Reading.
Import EscPosEncoder.

(** Every element of an array is a byte. *)
Definition allBytes (out : list Z) : Prop := Forall isByte out.

(** The parameters of ESC D up to, and without, the first NUL. *)
Fixpoint untilNul (params : list Z) : list Z :=
  match params with
  | [] => []
  | n :: rest => if n =? 0 then [] else n :: untilNul rest
  end.

(** The eight bits of a byte, most significant first, and the dots of a
    sequence of raster bytes. *)
Definition byteToBits (b : Z) : list bool :=
  (fun k : nat => Z.testbit b (7 - Z.of_nat k)) <$> seq 0 8.

Definition dotsOf (bytes : list Z) : list bool := mjoin (byteToBits <$> bytes).

(** The string whose character codes are given. *)
Definition fromCharCodes (codes : list Z) : string :=
  string_of_list_ascii ((fun c => ascii_of_nat (Z.to_nat c)) <$> codes).

(** An encoder of an enumerated choice can be read back: a name of the
    table shares its result with no other name. *)
Definition readable (enc : string -> result (list jsval))
    (table : gmap string Z) : Prop :=
  forall name1 name2 : string,
    is_Some (table !! name1) -> enc name1 = enc name2 -> name1 = name2.

(** A command with one numeric parameter accepts exactly the integers of
    [[lo, hi]], and emits an accepted one after its opcode. *)
Definition acceptsExactly (enc : Z -> result (list Z)) (opcode : list Z)
    (lo hi : Z) : Prop :=
  forall n : Z,
    (lo <= n <= hi /\ enc n = Ok (opcode ++ [n]))
    \/ (~ lo <= n <= hi /\ is_ok (enc n) = false).

(** The red channel of pixel ([x], [y]) of a PNG is 0, or lies beyond the
    end of the buffer. *)
Definition redIsZero (png : ConvertImage.PNGWithMetadata) (y x : nat) : bool :=
  match ConvertImage.png_data png
        !! ((y * ConvertImage.png_width png + x) * 4)%nat with
  | Some red => red =? 0
  | None => true
  end.

(** An interface that [open] passes over: its [claim()] throws, or it has
    no endpoint of direction out. *)
Definition passedOver (iface : EscPosUSB.Interface) : Prop :=
  EscPosUSB.claimThrows iface <> None
  \/ EscPosUSB.findOut (EscPosUSB.endpoints iface) = None.

(** Every wire value of a mapping table is a byte. *)
Definition byteValued (table : gmap string Z) : Prop :=
  forall (name : string) (v : Z), table !! name = Some v -> isByte v.

(** A grid is rectangular, of the given width. *)
Definition rectangular (width : nat) (data : list (list Z)) : Prop :=
  Forall (fun row => length row = width) data.

End Reading.
Import Reading.

(** ** Properties *)
Import EscPosEncoder.

Section Runtime.

Lemma bind_assert {A} (c : bool) (e : string) (k : result A) :
  (assert c e ;; k) = if c then k else AssertionError e.
Proof. destruct c; reflexivity. Qed.

Lemma bind_Ok {A B} (a : A) (f : A -> result B) : (Ok a ≫= f) = f a.
Proof. reflexivity. Qed.

Lemma toInt32_small (n : Z) : - 2 ^ 31 <= n < 2 ^ 31 -> toInt32 n = n.
Proof.
  intros H. unfold toInt32.
  rewrite Z.mod_small; lia.
Qed.

Lemma bitAnd_0_l (x : Z) : bitAnd 0 x = 0.
Proof. unfold bitAnd. change (toInt32 0) with 0. apply Z.land_0_l. Qed.

Lemma bitAndVal_0_l (v : jsval) : bitAndVal 0 v = 0.
Proof. unfold bitAndVal. change (toInt32 0) with 0. apply Z.land_0_l. Qed.

Lemma remainder_nonneg (a b : Z) : 0 <= a -> 0 < b -> remainder a b = a mod b.
Proof. intros Ha Hb. unfold remainder. apply Z.rem_mod_nonneg; lia. Qed.

Lemma prefix_refl (s : string) : String.prefix s s = true.
Proof.
  induction s as [|c s IH]; simpl; [reflexivity|].
  destruct (Ascii.ascii_dec c c); [exact IH | congruence].
Qed.

Lemma includes_refl (s : string) : includes s s = true.
Proof. destruct s; cbn [includes]; rewrite prefix_refl; reflexivity. Qed.

End Runtime.

(** *** The numeric codec *)
Section NumericCodec.

Lemma byteSplit_in_range (n : Z) :
  0 <= n <= 65535 -> byteSplit n = Ok [n mod 256; n / 256].
Proof.
  intros H. unfold byteSplit. rewrite !bind_assert.
  replace (0 <=? n) with true by lia.
  replace (n <=? 65535) with true by lia.
  unfold floorDiv. rewrite remainder_nonneg by lia. reflexivity.
Qed.

Lemma byteSplit_negative (n : Z) :
  n < 0 -> byteSplit n = AssertionError "n >= 0".
Proof.
  intros H. unfold byteSplit. rewrite !bind_assert.
  replace (0 <=? n) with false by lia. reflexivity.
Qed.

Lemma byteSplit_too_large (n : Z) :
  65535 < n -> byteSplit n = AssertionError "n <= 65535".
Proof.
  intros H. unfold byteSplit. rewrite !bind_assert.
  replace (0 <=? n) with true by lia.
  replace (n <=? 65535) with false by lia. reflexivity.
Qed.

Lemma byteSplit_bytes (n : Z) :
  0 <= n <= 65535 -> isByte (n mod 256) /\ isByte (n / 256).
Proof.
  intros H. unfold isByte. split.
  - apply Z.mod_pos_bound. lia.
  - split; [apply Z.div_pos; lia | apply Z.div_lt_upper_bound; lia].
Qed.

Lemma compose_div_mod (n : Z) : compose (n mod 256) (n / 256) = n.
Proof. unfold compose. pose proof (Z.div_mod n 256). lia. Qed.

(** C7: for every integer n in [0,65535], byteSplit (the spec's splitWord)
    returns (low, high) with low = n mod 256 and high = floor(n / 256),
    both bytes, and low + 256 * high recovers n; an n below 0 or above
    65535 fails the corresponding range assertion and returns no bytes. *)
Theorem byteSplit_roundtrip (n : Z) :
  (0 <= n <= 65535 ->
     byteSplit n = Ok [n mod 256; n / 256]
     /\ isByte (n mod 256) /\ isByte (n / 256)
     /\ compose (n mod 256) (n / 256) = n)
  /\ (n < 0 -> byteSplit n = AssertionError "n >= 0")
  /\ (65535 < n -> byteSplit n = AssertionError "n <= 65535").
Proof.
  split; [|split].
  - intros H. split; [apply byteSplit_in_range; exact H|].
    destruct (byteSplit_bytes n H) as [Hlo Hhi].
    split; [exact Hlo|]. split; [exact Hhi|]. apply compose_div_mod.
  - apply byteSplit_negative.
  - apply byteSplit_too_large.
Qed.

Lemma byteSplit_roundtrip_witness :
  (byteSplit 4660 = Ok [52; 18] /\ compose 52 18 = 4660)
  /\ byteSplit (-1) = AssertionError "n >= 0"
  /\ byteSplit 65536 = AssertionError "n <= 65535".
Proof.
  split; [|split].
  - destruct (proj1 (byteSplit_roundtrip 4660)) as (E & _ & _ & C); [lia|].
    split; [exact E | exact C].
  - apply (proj1 (proj2 (byteSplit_roundtrip (-1)))). lia.
  - apply (proj2 (proj2 (byteSplit_roundtrip 65536))). lia.
Defined.

(** C8: for every integer d in [-32768,32767], both relative-position
    encoders emit, after their opcode, the two bytes of
    byteSplit (d + 32768), and the little-endian pair read back minus 32768
    is d; a d below -32768 or above 32767 fails the corresponding
    assertion of both encoders. *)
Theorem relative_position_roundtrip (d : Z) :
  (-32768 <= d <= 32767 ->
     exists lo hi : Z,
       byteSplit (d + 32768) = Ok [lo; hi]
       /\ setRelativePrintPosition d = Ok [ESC; 0x5C; lo; hi]
       /\ setRelativeVerticalPrintPositionInPageMode d = Ok [GS; 0x5C; lo; hi]
       /\ isByte lo /\ isByte hi
       /\ compose lo hi - 32768 = d)
  /\ (d < -32768 ->
        setRelativePrintPosition d = AssertionError "d >= -32768"
        /\ setRelativeVerticalPrintPositionInPageMode d
           = AssertionError "d >= -32768")
  /\ (32767 < d ->
        setRelativePrintPosition d = AssertionError "d <= 32767"
        /\ setRelativeVerticalPrintPositionInPageMode d
           = AssertionError "d <= 32767").
Proof.
  split; [|split].
  - intros H.
    assert (Hn : 0 <= d + 32768 <= 65535) by lia.
    exists ((d + 32768) mod 256), ((d + 32768) / 256).
    pose proof (byteSplit_in_range _ Hn) as E.
    destruct (byteSplit_bytes _ Hn) as [Hlo Hhi].
    split; [exact E|].
    unfold setRelativePrintPosition, setRelativeVerticalPrintPositionInPageMode.
    rewrite !bind_assert, E.
    replace (-32768 <=? d) with true by lia.
    replace (d <=? 32767) with true by lia.
    split; [reflexivity|]. split; [reflexivity|].
    split; [exact Hlo|]. split; [exact Hhi|].
    rewrite compose_div_mod. lia.
  - intros H.
    unfold setRelativePrintPosition, setRelativeVerticalPrintPositionInPageMode.
    rewrite !bind_assert.
    replace (-32768 <=? d) with false by lia. split; reflexivity.
  - intros H.
    unfold setRelativePrintPosition, setRelativeVerticalPrintPositionInPageMode.
    rewrite !bind_assert.
    replace (-32768 <=? d) with true by lia.
    replace (d <=? 32767) with false by lia. split; reflexivity.
Qed.

Lemma relative_position_roundtrip_witness :
  (exists lo hi : Z,
      setRelativePrintPosition (-1) = Ok [ESC; 0x5C; lo; hi]
      /\ setRelativeVerticalPrintPositionInPageMode (-1) = Ok [GS; 0x5C; lo; hi]
      /\ compose lo hi - 32768 = -1)
  /\ setRelativePrintPosition (-32769) = AssertionError "d >= -32768"
  /\ setRelativeVerticalPrintPositionInPageMode 32768
     = AssertionError "d <= 32767".
Proof.
  split; [|split].
  - destruct (proj1 (relative_position_roundtrip (-1)))
      as (lo & hi & _ & E1 & E2 & _ & _ & C); [lia|].
    exists lo, hi. split; [exact E1|]. split; [exact E2 | exact C].
  - apply (proj1 (proj2 (relative_position_roundtrip (-32769)))). lia.
  - apply (proj2 (proj2 (relative_position_roundtrip 32768))). lia.
Defined.

End NumericCodec.

(** *** The command encoder *)
Section CommandEncoder.

Lemma shl_4_small (x : Z) : 0 <= x < 2 ^ 27 -> shl x 4 = 16 * x.
Proof.
  intros H. unfold shl. change (4 mod 32) with 4.
  rewrite (toInt32_small x) by lia.
  rewrite Z.shiftl_mul_pow2 by lia.
  rewrite toInt32_small; lia.
Qed.

(** What [selectCharacterSize] computes on the accepted sizes. *)
Lemma selectCharacterSize_value (width height : Z) :
  1 <= width <= 8 -> 1 <= height <= 8 ->
  selectCharacterSize (Some width) (Some height)
  = Ok [GS; 0x21; 256 * (width - 1) + 16 * (height - 1)].
Proof.
  intros Hw Hh. unfold selectCharacterSize. cbn [default from_option id]. rewrite !bind_assert.
  replace (1 <=? width) with true by lia.
  replace (width <=? 8) with true by lia.
  replace (1 <=? height) with true by lia.
  replace (height <=? 8) with true by lia.
  rewrite shl_4_small by lia.
  replace (16 * (16 * (width - 1)) + 16 * (height - 1))
    with (256 * (width - 1) + 16 * (height - 1)) by lia.
  reflexivity.
Qed.

Lemma selectCharacterSize_rejects (width height : Z) :
  ~ (1 <= width <= 8 /\ 1 <= height <= 8) ->
  is_ok (selectCharacterSize (Some width) (Some height)) = false.
Proof.
  intros H. unfold selectCharacterSize. cbn [default from_option id]. rewrite !bind_assert.
  destruct (1 <=? width) eqn:E1; [|reflexivity].
  destruct (width <=? 8) eqn:E2; [|reflexivity].
  destruct (1 <=? height) eqn:E3; [|reflexivity].
  destruct (height <=? 8) eqn:E4; [|reflexivity].
  exfalso. apply H. lia.
Qed.

(** C1: selectCharacterSize(2,2) returns the opcode GS ! followed by the
    element 272 = (16 << 4) + 16, which is not the byte 0x11 and not a byte
    at all. *)
Theorem selectCharacterSize_2_2 :
  selectCharacterSize (Some 2) (Some 2) = Ok [0x1d; 0x21; 272]
  /\ 272 <> 0x11 /\ ~ isByte 272.
Proof.
  split; [reflexivity|]. split; [discriminate|].
  unfold isByte. lia.
Qed.

Lemma getProp_number (table : gmap string Z) (name : string) (w : Z) :
  getProp table name = JNum w <-> table !! name = Some w.
Proof.
  unfold getProp. destruct (table !! name) as [v|].
  - split; intros H; inversion H; reflexivity.
  - split; intros H; [|discriminate H].
    destruct (bool_decide (name ∈ objectPrototypeKeys)); discriminate H.
Qed.

Lemma getProp_looksUp (opcode : list Z) (table : gmap string Z) :
  looksUp (fun name => Ok (map JNum opcode ++ [getProp table name]))
          opcode table.
Proof.
  intros name. exists (getProp table name).
  split; [reflexivity | apply getProp_number].
Qed.

(** C2, as the code has it: the encoders of the font (ESC M and GS f), the
    character code table, the international character set and the HRI
    print position validate nothing: every symbolic name yields the opcode
    and one more element, the table's wire value for a name of the closed
    mapping table and a value that is not a number for any other name.
    selectJustification maps left, centered and right (and the omitted
    argument, left) to 0, 1 and 2. *)
Theorem enumerated_choice_lookup :
  looksUp selectFont [ESC; 0x4d] fontMap
  /\ looksUp selectFontForBarcodeHriCharacters [GS; 0x66] fontMap
  /\ looksUp selectCharacterCodeTable [ESC; 0x74] characterCodeTableMap
  /\ looksUp selectInternationalCharacterSet [ESC; 0x52]
             internationalCharacterSetMap
  /\ looksUp selectPrintPositionOfBarcodeHriCharacters [GS; 0x48]
             printPositionOfHriCharactersMap
  /\ selectJustification None = Ok [ESC; 0x61; 0]
  /\ selectJustification (Some "left") = Ok [ESC; 0x61; 0]
  /\ selectJustification (Some "centered") = Ok [ESC; 0x61; 1]
  /\ selectJustification (Some "right") = Ok [ESC; 0x61; 2].
Proof.
  repeat split; try (vm_compute; reflexivity);
    first [ apply (getProp_looksUp [ESC; 0x4d])
          | apply (getProp_looksUp [GS; 0x66])
          | apply (getProp_looksUp [ESC; 0x74])
          | apply (getProp_looksUp [ESC; 0x52])
          | apply (getProp_looksUp [GS; 0x48]) ].
Qed.

(** C2, as the claim states it, fails: a name outside the mapping table of
    the character code tables is encoded, with [undefined] for its wire
    value, and no validation fails. *)
Lemma unknown_name_not_rejected :
  characterCodeTableMap !! "klingon" = None
  /\ selectCharacterCodeTable "klingon"
     = Ok [JNum 0x1b; JNum 0x74; JUndefined].
Proof. split; vm_compute; reflexivity. Qed.

(** The assertion of selectJustification compares the argument with itself
    and holds of every string. *)
Lemma selectJustification_never_fails (justification : string) :
  selectJustification (Some justification)
  = Ok [ESC; 0x61; indexOf ["left"; "centered"; "right"] justification].
Proof.
  unfold selectJustification. cbn [default from_option id].
  rewrite bind_assert, includes_refl. reflexivity.
Qed.

Example selectJustification_unknown :
  selectJustification (Some "up") = Ok [ESC; 0x61; -1].
Proof. vm_compute. reflexivity. Qed.

(** C6: cut() with no feed argument, or with feed 0, returns the 3-byte
    default cut [GS, 0x56, 1]; cut(n) for n in [1,255] returns the 4-byte
    feed-and-cut [GS, 0x56, 65, n]; cut(10) ends in 10. *)
Theorem cut_variants :
  snd (cut None) = Ok [0x1d; 0x56; 1]
  /\ snd (cut (Some 0)) = Ok [0x1d; 0x56; 1]
  /\ (forall n : Z, 1 <= n <= 255 -> snd (cut (Some n)) = Ok [0x1d; 0x56; 65; n])
  /\ snd (cut (Some 10)) = Ok [0x1d; 0x56; 65; 10].
Proof.
  split; [reflexivity|]. split; [reflexivity|]. split; [|reflexivity].
  intros n H. unfold cut. cbn [default from_option id]. rewrite bind_assert.
  replace (0 <=? n) with true by lia. unfold assert.
  replace (n <=? 255) with true by lia.
  replace (0 <? n) with true by lia. reflexivity.
Qed.

Lemma cut_variants_witness :
  snd (cut (Some 255)) = Ok [0x1d; 0x56; 65; 255].
Proof. apply (proj1 (proj2 (proj2 cut_variants)) 255). lia. Defined.

(** C9: selectPrintModes returns [0x1b, 0x20, 0] for every combination of
    its arguments: the accumulator starts at 0 and every flag is combined
    into it with bitwise AND. *)
Theorem selectPrintModes_constant (font : string)
    (emphasised doubleHeight doubleWidth underline : option bool) :
  selectPrintModes font emphasised doubleHeight doubleWidth underline
  = Ok [0x1b; 0x20; 0].
Proof.
  unfold selectPrintModes. cbv zeta.
  rewrite bitAndVal_0_l, !bitAnd_0_l. reflexivity.
Qed.

(** C10: setRightSideCharacterSpacing with no argument takes its default 0
    and fails its own assertion n > 0; an argument is accepted, and emitted
    after ESC SP, exactly when it is in [1,255]. *)
Theorem setRightSideCharacterSpacing_default_rejected :
  setRightSideCharacterSpacing None = AssertionError "n > 0 && n <= 255"
  /\ forall n : Z,
       (1 <= n <= 255
        /\ setRightSideCharacterSpacing (Some n) = Ok [0x1b; 0x20; n])
       \/ (~ 1 <= n <= 255
           /\ setRightSideCharacterSpacing (Some n)
              = AssertionError "n > 0 && n <= 255").
Proof.
  split; [reflexivity|]. intros n.
  unfold setRightSideCharacterSpacing. cbn [default from_option id]. rewrite bind_assert.
  destruct ((0 <? n) && (n <=? 255)) eqn:E.
  - left. split; [lia | reflexivity].
  - right. split; [lia | reflexivity].
Qed.

End CommandEncoder.

(** *** The raster image encoder *)
Section RasterImage.

Lemma joinDigits_bitString (xs : list Z) :
  joinDigits (map (fun x => if truthy x then 1 else 0) xs)
  = bitString (truthy <$> xs).
Proof.
  induction xs as [|x xs IH]; [reflexivity|].
  cbn [map joinDigits foldr fmap list_fmap bitString].
  fold (joinDigits (map (fun x => if truthy x then 1 else 0) xs)).
  fold (bitString (truthy <$> xs)).
  rewrite IH. destruct (truthy x); reflexivity.
Qed.

Lemma bitString_length (bs : list bool) :
  String.length (bitString bs) = length bs.
Proof. induction bs as [|b bs IH]; [reflexivity|]. cbn. f_equal. exact IH. Qed.

Lemma bitString_app (bs cs : list bool) :
  bitString (bs ++ cs) = bitString bs +:+ bitString cs.
Proof.
  unfold bitString. induction bs as [|b bs IH]; [reflexivity|].
  simpl. rewrite IH. reflexivity.
Qed.

Lemma bitString_zeros (n : nat) :
  string_of_list_ascii (replicate n "0"%char) = bitString (replicate n false).
Proof. induction n as [|n IH]; [reflexivity|]. cbn. f_equal. exact IH. Qed.

Lemma binaryOfSlice_bits (row : list Z) (i : nat) :
  binaryOfSlice row i = bitString (byteBits row i).
Proof.
  unfold binaryOfSlice, byteBits, slice, padEnd0.
  replace (i + 8 - i)%nat with 8%nat by lia.
  rewrite joinDigits_bitString, bitString_length, bitString_zeros.
  now rewrite bitString_app.
Qed.

Lemma byteBits_length (row : list Z) (i : nat) : length (byteBits row i) = 8%nat.
Proof.
  unfold byteBits. rewrite length_app, length_replicate, length_fmap, length_take.
  lia.
Qed.

Lemma parseBinaryFrom_bits (bs : list bool) (acc : Z) :
  parseBinaryFrom (bitString bs) acc
  = foldl (fun a (b : bool) => 2 * a + Z.b2z b) acc bs.
Proof.
  revert acc. induction bs as [|b bs IH]; intros acc; [reflexivity|].
  destruct b; cbn [bitString foldr parseBinaryFrom foldl Z.b2z];
    fold (bitString bs); rewrite IH; [reflexivity|].
  now rewrite Z.add_0_r.
Qed.

Lemma parseInt2_bits (bs : list bool) :
  bs <> [] -> parseInt2 (bitString bs) = Some (bitsValue bs).
Proof.
  destruct bs as [|b bs]; [congruence|]. intros _.
  unfold bitsValue. rewrite <- parseBinaryFrom_bits.
  destruct b; reflexivity.
Qed.

(** The string handed to [parseInt] is eight binary digits, never NaN. *)
Lemma packByte_parses (row : list Z) (i : nat) :
  parseInt2 (binaryOfSlice row i) = Some (bitsValue (byteBits row i)).
Proof.
  rewrite binaryOfSlice_bits. apply parseInt2_bits.
  intros E. pose proof (byteBits_length row i) as L. rewrite E in L.
  discriminate L.
Qed.

Lemma packByte_value (row : list Z) (i : nat) :
  packByte row i = bitsValue (byteBits row i).
Proof. unfold packByte. now rewrite packByte_parses. Qed.

Lemma bitsValue_snoc (bs : list bool) (b : bool) :
  bitsValue (bs ++ [b]) = 2 * bitsValue bs + Z.b2z b.
Proof. unfold bitsValue. now rewrite foldl_snoc. Qed.

Lemma bitsValue_bound (bs : list bool) :
  0 <= bitsValue bs < 2 ^ Z.of_nat (length bs).
Proof.
  induction bs as [|b bs IH] using rev_ind; [cbn; lia|].
  rewrite bitsValue_snoc, length_app. cbn [length].
  replace (Z.of_nat (length bs + 1)) with (Z.succ (Z.of_nat (length bs))) by lia.
  rewrite Z.pow_succ_r by lia.
  destruct b; cbn [Z.b2z]; lia.
Qed.

(** Bit [length bs - 1 - k] of the value is the [k]-th element: the first
    element is the most significant bit. *)
Lemma bitsValue_testbit (bs : list bool) (k : nat) (b : bool) :
  bs !! k = Some b ->
  Z.testbit (bitsValue bs) (Z.of_nat (length bs - 1 - k)) = b.
Proof.
  revert k b. induction bs as [|c bs IH] using rev_ind; intros k b H.
  - discriminate H.
  - rewrite bitsValue_snoc, length_app. cbn [length].
    apply lookup_snoc_Some in H as [[Hk H]|[Hk ->]].
    + replace (Z.of_nat (length bs + 1 - 1 - k))
        with (Z.succ (Z.of_nat (length bs - 1 - k))) by lia.
      rewrite Z.testbit_succ_r by lia. now apply IH.
    + replace (length bs + 1 - 1 - k)%nat with 0%nat by lia.
      apply Z.testbit_0_r.
Qed.

Lemma byteBits_lookup (row : list Z) (i k : nat) :
  (k < 8)%nat ->
  byteBits row i !! k
  = Some (match row !! (i + k)%nat with Some x => truthy x | None => false end).
Proof.
  intros Hk. unfold byteBits.
  assert (L : length (truthy <$> take 8 (drop i row))
              = Nat.min 8 (length row - i)).
  { now rewrite length_fmap, length_take, length_drop. }
  destruct (decide (k < length row - i)%nat) as [Hin|Hout].
  - rewrite lookup_app_l by lia.
    rewrite list_lookup_fmap, lookup_take_lt, lookup_drop by lia.
    destruct (row !! (i + k)%nat) as [x|] eqn:E; [reflexivity|].
    apply lookup_ge_None in E. lia.
  - rewrite lookup_app_r by lia.
    rewrite lookup_replicate_2 by lia.
    rewrite (proj2 (lookup_ge_None row (i + k)%nat)) by lia. reflexivity.
Qed.

(** A packed byte is a byte, and its bit [7 - k] is pixel [i + k] of the
    row, blank beyond the end of the row. *)
Lemma packByte_bits (row : list Z) (i : nat) :
  isByte (packByte row i)
  /\ forall k : nat, (k < 8)%nat ->
       Z.testbit (packByte row i) (7 - Z.of_nat k)
       = match row !! (i + k)%nat with Some x => truthy x | None => false end.
Proof.
  rewrite packByte_value. split.
  - pose proof (bitsValue_bound (byteBits row i)) as B.
    rewrite byteBits_length in B. exact B.
  - intros k Hk.
    pose proof (bitsValue_testbit _ _ _ (byteBits_lookup row i k Hk)) as T.
    rewrite byteBits_length in T.
    replace (7 - Z.of_nat k) with (Z.of_nat (8 - 1 - k)) by lia. exact T.
Qed.

(** [(n + 7) / 8] is the ceiling of [n / 8]. *)
Lemma ceil8_bounds (n : nat) : (n <= 8 * ((n + 7) / 8) < n + 8)%nat.
Proof.
  pose proof (Nat.div_mod_eq (n + 7) 8).
  pose proof (Nat.mod_upper_bound (n + 7) 8). lia.
Qed.

Lemma ceilDiv_8 (n : nat) : ceilDiv (Z.of_nat n) 8 = Z.of_nat ((n + 7) / 8).
Proof.
  pose proof (ceil8_bounds n) as B. unfold ceilDiv.
  generalize dependent ((n + 7) / 8)%nat. intros q B.
  pose proof (Z.div_mod (- Z.of_nat n) 8).
  pose proof (Z.mod_pos_bound (- Z.of_nat n) 8). lia.
Qed.

Lemma packRowFrom_acc (fuel : nat) (row : list Z) (i : nat) (a : list Z) :
  packRowFrom fuel row i a = a ++ packRowFrom fuel row i [].
Proof.
  revert i a. induction fuel as [|fuel IH]; intros i a; cbn [packRowFrom].
  - now rewrite app_nil_r.
  - destruct (i <? length row)%nat; [|now rewrite app_nil_r].
    rewrite (IH _ (a ++ _)), (IH _ ([] ++ _)). now rewrite <- app_assoc.
Qed.

(** With enough fuel the loop stops at the end of the row, after one byte
    for every eight pixels begun. *)
Lemma packRowFrom_bytes (fuel : nat) (row : list Z) (j0 : nat) :
  ((length row + 7) / 8 - j0 <= fuel)%nat ->
  packRowFrom fuel row (8 * j0) []
  = (fun j : nat => packByte row (8 * j))
      <$> seq j0 ((length row + 7) / 8 - j0).
Proof.
  pose proof (ceil8_bounds (length row)) as B.
  generalize dependent ((length row + 7) / 8)%nat. intros q B.
  revert j0. induction fuel as [|fuel IH]; intros j0 H; cbn [packRowFrom].
  - replace (q - j0)%nat with 0%nat by lia. reflexivity.
  - destruct (Nat.ltb_spec (8 * j0) (length row)) as [Hlt|Hge].
    + rewrite packRowFrom_acc.
      replace (8 * j0 + 8)%nat with (8 * S j0)%nat by lia.
      rewrite IH by lia.
      replace (q - j0)%nat with (S (q - S j0)) by lia.
      reflexivity.
    + replace (q - j0)%nat with 0%nat by lia. reflexivity.
Qed.

Lemma packRow_bytes (row a : list Z) : packRow row a = a ++ rowBytes row.
Proof.
  unfold packRow, rowBytes. rewrite packRowFrom_acc. f_equal.
  change 0%nat with (8 * 0)%nat at 1.
  rewrite packRowFrom_bytes by (pose proof (ceil8_bounds (length row)); lia).
  now rewrite Nat.sub_0_r.
Qed.

Lemma packRows_bytes (data : list (list Z)) (a : list Z) :
  packRows data a = a ++ mjoin (rowBytes <$> data).
Proof.
  revert a. induction data as [|row data IH]; intros a.
  - cbn. now rewrite app_nil_r.
  - unfold packRows in *. cbn [foldl fmap list_fmap mjoin list_join].
    rewrite IH, packRow_bytes. now rewrite <- app_assoc.
Qed.

Lemma rowBytes_length (row : list Z) :
  length (rowBytes row) = ((length row + 7) / 8)%nat.
Proof. unfold rowBytes. now rewrite length_fmap, length_seq. Qed.

Lemma rowBytes_lookup (row : list Z) (j : nat) :
  (j < (length row + 7) / 8)%nat ->
  rowBytes row !! j = Some (packByte row (8 * j)).
Proof.
  intros H. unfold rowBytes.
  rewrite list_lookup_fmap, lookup_seq_lt by lia. reflexivity.
Qed.

Lemma rectangular_every (data : list (list Z)) (row0 : list Z) :
  Forall (fun row => length row = length row0) data ->
  forallb (fun line => len line =? len row0) data = true.
Proof.
  induction 1 as [|row data Hrow _ IH]; [reflexivity|].
  cbn [forallb]. rewrite IH, andb_true_r. unfold len. lia.
Qed.

Lemma join_uniform_length {A} (n : nat) (ls : list (list A)) :
  Forall (fun l => length l = n) ls ->
  length (mjoin ls) = (length ls * n)%nat.
Proof.
  induction 1 as [|l ls Hl _ IH]; [reflexivity|].
  change (mjoin (l :: ls)) with (l ++ mjoin ls).
  rewrite length_app, IH, Hl. cbn [length]. lia.
Qed.

(** C4: for every rectangular grid of width and height in [1,65535],
    printRasterBitImage returns the header (opcode, mode byte, the number
    of bytes of a row ceil(width / 8) and the height, each as two
    little-endian bytes) followed by the rows in order, each row as
    ceil(width / 8) bytes; bit 7 - k of byte j of row r is pixel 8j + k of
    that row, and is 0 beyond the end of the row.  On the 9 by 2 grid of
    printed pixels these are 2 bytes per row, 2 rows, and the bytes
    [0xFF, 0x80] for each row. *)
Theorem printRasterBitImage_packs :
  (forall (data : list (list Z)) (width : nat)
          (verticalScale horizontalScale : option Z),
     1 <= len data <= 65535 ->
     1 <= Z.of_nat width <= 65535 ->
     Forall (fun row => length row = width) data ->
     exists (widthInBytes : nat) (a : list Z),
       (width <= 8 * widthInBytes < width + 8)%nat
       /\ printRasterBitImage data verticalScale horizontalScale
          = Ok ([GS; 0x76; 0x30;
                 (default 1 verticalScale - 1) * 2
                 + (default 1 horizontalScale - 1)]
                ++ [Z.of_nat widthInBytes mod 256; Z.of_nat widthInBytes / 256]
                ++ [len data mod 256; len data / 256]
                ++ a)
       /\ length a = (length data * widthInBytes)%nat
       /\ forall r j : nat,
            (r < length data)%nat -> (j < widthInBytes)%nat ->
            exists byte : Z,
              a !! (r * widthInBytes + j)%nat = Some byte
              /\ isByte byte
              /\ forall k : nat, (k < 8)%nat ->
                   Z.testbit byte (7 - Z.of_nat k)
                   = pixelAt data r (8 * j + k))
  /\ printRasterBitImage (replicate 2 (replicate 9 1)) None None
     = Ok ([0x1d; 0x76; 0x30; 0] ++ [2; 0] ++ [2; 0]
           ++ [0xFF; 0x80] ++ [0xFF; 0x80]).
Proof.
  split; [|vm_compute; reflexivity].
  intros data width vs hs Hh Hw Hrect.
  exists ((width + 7) / 8)%nat, (mjoin (rowBytes <$> data)).
  assert (Hbytes : Forall (fun l => length l = ((width + 7) / 8)%nat)
                          (rowBytes <$> data)).
  { apply Forall_fmap. eapply Forall_impl; [exact Hrect|].
    intros row Hrow.
    change (length (rowBytes row) = ((width + 7) / 8)%nat).
    now rewrite rowBytes_length, Hrow. }
  split; [apply ceil8_bounds|].
  pose proof (ceil8_bounds width) as Hwb.
  split; [|split].
  - unfold printRasterBitImage. rewrite !bind_assert.
    unfold len in Hh.
    destruct data as [|row0 rest]; [cbn in Hh; lia|].
    assert (Hrow0 : length row0 = width) by (inversion Hrect; assumption).
    replace (1 <=? len (row0 :: rest)) with true by (unfold len; lia).
    replace (len (row0 :: rest) <? 65536) with true by (unfold len; lia).
    rewrite !bind_assert.
    replace (1 <=? len row0) with true by (unfold len; lia).
    replace (len row0 <? 65536) with true by (unfold len; lia).
    rewrite rectangular_every by (rewrite Hrow0; exact Hrect).
    replace (ceilDiv (len row0) 8) with (Z.of_nat ((width + 7) / 8))
      by (unfold len; now rewrite ceilDiv_8, Hrow0).
    rewrite !byteSplit_in_range by (unfold len; lia).
    unfold len.
    rewrite packRows_bytes. reflexivity.
  - rewrite (join_uniform_length _ _ Hbytes). now rewrite length_fmap.
  - intros r j Hr Hj.
    destruct (lookup_lt_is_Some_2 data r Hr) as [row Hrow].
    assert (Hlen : length row = width).
    { eapply Forall_lookup_1 in Hrect; [exact Hrect | exact Hrow]. }
    exists (packByte row (8 * j)).
    destruct (packByte_bits row (8 * j)) as [Hb Hbits].
    split; [|split; [exact Hb|]].
    + apply (join_lookup_Some_same_length' _ _ _ _ _ Hbytes Hj).
      exists (rowBytes row). split.
      * rewrite list_lookup_fmap, Hrow. reflexivity.
      * apply rowBytes_lookup. now rewrite Hlen.
    + intros k Hk. rewrite (Hbits k Hk). unfold pixelAt. now rewrite Hrow.
Qed.

Lemma printRasterBitImage_packs_witness :
  exists (widthInBytes : nat) (a : list Z),
    widthInBytes = 2%nat
    /\ printRasterBitImage (replicate 2 (replicate 9 1)) None None
       = Ok ([0x1d; 0x76; 0x30; 0] ++ [2; 0] ++ [2; 0] ++ a)
    /\ length a = 4%nat.
Proof.
  destruct (proj1 printRasterBitImage_packs
              (replicate 2 (replicate 9 1)) 9%nat None None)
    as (wb & a & Hwb & E & L & _).
  - unfold len. simpl. lia.
  - lia.
  - repeat constructor.
  - assert (Ewb : wb = 2%nat) by lia. subst wb.
    exists 2%nat, a. split; [reflexivity|]. split; [exact E | exact L].
Defined.

End RasterImage.

(** *** The bit-image mode encoder *)
Section BitImageMode.

Lemma len_nonneg {A} (xs : list A) : 0 <= len xs.
Proof. unfold len. lia. Qed.

(** What ESC * returns on a strip of 8-dot columns. *)
Lemma selectBitImageMode_8 (hd : string) (data : list Z) :
  selectBitImageMode (Some 8) (Some hd) data
  = (nLnH ← byteSplit (len data) ;
     mret ([ESC; 0x2a; if bool_decide (hd = "single") then 0 else 1]
           ++ nLnH ++ data)).
Proof.
  unfold selectBitImageMode. cbn [default from_option id].
  rewrite bind_assert. cbn [Z.eqb Pos.eqb orb].
  rewrite bind_Ok, Z.div_1_r. reflexivity.
Qed.

(** What ESC * returns on a strip of 24-dot columns. *)
Lemma selectBitImageMode_24 (hd : string) (data : list Z) :
  selectBitImageMode (Some 24) (Some hd) data
  = (assert (len data mod 3 =? 0) "data.length % 3 == 0" ;;
     nLnH ← byteSplit (len data / 3) ;
     mret ([ESC; 0x2a; 32 + if bool_decide (hd = "single") then 0 else 1]
           ++ nLnH ++ data)).
Proof.
  unfold selectBitImageMode. cbn [default from_option id].
  rewrite bind_assert. cbn [Z.eqb Pos.eqb orb].
  rewrite remainder_nonneg by (pose proof (len_nonneg data); lia).
  reflexivity.
Qed.

Lemma modeByte_single_double (vd : Z) (hd : string) :
  vd = 8 \/ vd = 24 -> hd = "single" \/ hd = "double" ->
  modeByte vd hd
  = (if vd =? 8 then 0 else 32)
    + (if bool_decide (hd = "single") then 0 else 1).
Proof.
  intros [-> | ->] [-> | ->]; reflexivity.
Qed.

(** C5: for a horizontal density that is single or double, ESC * on a
    strip is accepted exactly when the vertical density is 8 or 24, a
    24-dot strip has a length divisible by 3, and the number of columns,
    the strip length divided by 1 (density 8) or 3 (density 24), is at
    most 65535; an accepted strip is encoded as ESC *, the mode byte
    (density == 24 ? 32 : 0) + (horizontalDensity == double ? 1 : 0), the
    number of columns as two little-endian bytes, and the strip as it is.
    Another density fails the first assertion and a 24-dot strip whose
    length is not divisible by 3 fails the second. *)
Theorem selectBitImageMode_spec (vd : Z) (hd : string) (data : list Z) :
  hd = "single" \/ hd = "double" ->
  (vd = 8 \/ (vd = 24 /\ len data mod 3 = 0) ->
   columnCount vd (len data) <= 65535 ->
     selectBitImageMode (Some vd) (Some hd) data
     = Ok ([ESC; 0x2a; modeByte vd hd]
           ++ [columnCount vd (len data) mod 256;
               columnCount vd (len data) / 256]
           ++ data)
     /\ compose (columnCount vd (len data) mod 256)
                (columnCount vd (len data) / 256)
        = columnCount vd (len data)
     /\ columnCount vd (len data) * (if vd =? 8 then 1 else 3) = len data)
  /\ (vd <> 8 -> vd <> 24 ->
        selectBitImageMode (Some vd) (Some hd) data
        = AssertionError "verticalDensity == 8 || verticalDensity == 24")
  /\ (vd = 24 -> len data mod 3 <> 0 ->
        selectBitImageMode (Some vd) (Some hd) data
        = AssertionError "data.length % 3 == 0")
  /\ (forall out : list Z,
        selectBitImageMode (Some vd) (Some hd) data = Ok out ->
        (vd = 8 \/ vd = 24)
        /\ (vd = 24 -> len data mod 3 = 0)
        /\ out = [ESC; 0x2a; modeByte vd hd]
                 ++ [columnCount vd (len data) mod 256;
                     columnCount vd (len data) / 256]
                 ++ data).
Proof.
  intros Hhd. pose proof (len_nonneg data) as Hlen.
  assert (Accept :
    vd = 8 \/ (vd = 24 /\ len data mod 3 = 0) ->
    columnCount vd (len data) <= 65535 ->
    selectBitImageMode (Some vd) (Some hd) data
    = Ok ([ESC; 0x2a; modeByte vd hd]
          ++ [columnCount vd (len data) mod 256;
              columnCount vd (len data) / 256]
          ++ data)).
  { intros Hvd Hcols.
    rewrite modeByte_single_double by tauto.
    destruct Hvd as [-> | [-> Hmod]]; unfold columnCount in *;
      cbn [Z.eqb Pos.eqb] in *.
    - rewrite Z.div_1_r in *. rewrite selectBitImageMode_8.
      rewrite byteSplit_in_range by lia. reflexivity.
    - rewrite selectBitImageMode_24, bind_assert.
      replace (len data mod 3 =? 0) with true by lia.
      rewrite byteSplit_in_range; [reflexivity|].
      split; [apply Z.div_pos; lia | exact Hcols]. }
  assert (Density : vd <> 8 -> vd <> 24 ->
    selectBitImageMode (Some vd) (Some hd) data
    = AssertionError "verticalDensity == 8 || verticalDensity == 24").
  { intros H8 H24. unfold selectBitImageMode. cbn [default from_option id].
    rewrite bind_assert.
    replace (vd =? 8) with false by lia.
    replace (vd =? 24) with false by lia. reflexivity. }
  assert (Three : vd = 24 -> len data mod 3 <> 0 ->
    selectBitImageMode (Some vd) (Some hd) data
    = AssertionError "data.length % 3 == 0").
  { intros -> Hmod. rewrite selectBitImageMode_24, bind_assert.
    replace (len data mod 3 =? 0) with false by lia. reflexivity. }
  split; [|split; [exact Density|split; [exact Three|]]].
  - intros Hvd Hcols. split; [apply Accept; assumption|].
    split; [apply compose_div_mod|].
    destruct Hvd as [-> | [-> Hmod]]; unfold columnCount;
      cbn [Z.eqb Pos.eqb].
    + rewrite Z.div_1_r. lia.
    + pose proof (Z.div_mod (len data) 3). lia.
  - intros out E.
    destruct (decide (vd = 8)) as [H8|H8];
      [|destruct (decide (vd = 24)) as [H24|H24]].
    + destruct (Z_le_gt_dec (columnCount vd (len data)) 65535) as [Hc|Hc].
      * rewrite Accept in E by tauto. inversion E.
        split; [tauto|]. split; [lia | reflexivity].
      * exfalso. subst vd. unfold columnCount in Hc.
        cbn [Z.eqb Pos.eqb] in Hc. rewrite Z.div_1_r in Hc.
        rewrite selectBitImageMode_8 in E.
        rewrite byteSplit_too_large in E by lia. discriminate E.
    + destruct (decide (len data mod 3 = 0)) as [Hm|Hm].
      * destruct (Z_le_gt_dec (columnCount vd (len data)) 65535) as [Hc|Hc].
        -- rewrite Accept in E by tauto. inversion E.
           split; [tauto|]. split; [tauto | reflexivity].
        -- exfalso. subst vd. unfold columnCount in Hc.
           cbn [Z.eqb Pos.eqb] in Hc.
           rewrite selectBitImageMode_24, bind_assert in E.
           replace (len data mod 3 =? 0) with true in E by lia.
           rewrite byteSplit_too_large in E by lia. discriminate E.
      * rewrite Three in E by assumption. discriminate E.
    + rewrite Density in E by assumption. discriminate E.
Qed.

Lemma selectBitImageMode_spec_witness :
  selectBitImageMode (Some 24) (Some "double") [1; 2; 3; 4; 5; 6]
  = Ok [0x1b; 0x2a; 33; 2; 0; 1; 2; 3; 4; 5; 6]
  /\ selectBitImageMode (Some 16) (Some "single") [1; 2; 3]
     = AssertionError "verticalDensity == 8 || verticalDensity == 24"
  /\ selectBitImageMode (Some 24) (Some "single") [1; 2; 3; 4]
     = AssertionError "data.length % 3 == 0".
Proof.
  split; [|split].
  - apply (proj1 (selectBitImageMode_spec 24 "double" [1; 2; 3; 4; 5; 6]
                   (or_intror eq_refl))).
    + right. split; reflexivity.
    + vm_compute. discriminate.
  - apply (proj1 (proj2 (selectBitImageMode_spec 16 "single" [1; 2; 3]
                           (or_introl eq_refl)))); discriminate.
  - apply (proj1 (proj2 (proj2 (selectBitImageMode_spec 24 "single"
                                  [1; 2; 3; 4] (or_introl eq_refl))))).
    + reflexivity.
    + vm_compute. discriminate.
Defined.

End BitImageMode.

(** *** The barcode encoder *)
Section BarcodeEncoder.
Import Barcodes.

Lemma splitToCharCodes_length (s : string) :
  length (splitToCharCodes s) = String.length s.
Proof.
  unfold splitToCharCodes, splitChars. rewrite length_map.
  induction s as [|c s IH]; [reflexivity|]. cbn. now rewrite IH.
Qed.

Lemma digits_every (cs : list ascii) :
  forallb (fun charCode => (48 <=? charCode) && (charCode <=? 57))
          (map charCode cs) = true
  <-> Forall isDigitChar cs.
Proof.
  induction cs as [|c cs IH]; cbn [map forallb].
  - split; [constructor | reflexivity].
  - rewrite andb_true_iff, IH, Forall_cons, andb_true_iff, !Z.leb_le.
    unfold isDigitChar. tauto.
Qed.

(** C3: printBarcodeUpcA succeeds exactly when its payload is 11
    characters long and every character is an ASCII digit (0x30 to 0x39),
    and then returns GS k, the selector 65, the length byte 11 and the 11
    character codes as they are; a payload of another length fails the
    length assertion, and one of 11 characters with a character that is not
    a digit fails the character-class assertion. *)
Theorem printBarcodeUpcA_spec (data : string) :
  (String.length data = 11%nat -> Forall isDigitChar (splitChars data) ->
     printBarcodeUpcA data
     = Ok ([0x1d; 0x6b; 65; 11] ++ map charCode (splitChars data)))
  /\ (String.length data <> 11%nat ->
        printBarcodeUpcA data = AssertionError "data.length == 11")
  /\ (String.length data = 11%nat -> ~ Forall isDigitChar (splitChars data) ->
        printBarcodeUpcA data
        = AssertionError
            "codes.every(charCode => charCode >= 48 && charCode <= 57)")
  /\ (is_ok (printBarcodeUpcA data) = true
      <-> String.length data = 11%nat /\ Forall isDigitChar (splitChars data)).
Proof.
  unfold printBarcodeUpcA. rewrite !bind_assert.
  unfold len. rewrite splitToCharCodes_length. unfold strlen, splitToCharCodes.
  pose proof (digits_every (splitChars data)) as D.
  destruct (Z.eqb_spec (Z.of_nat (String.length data)) 11) as [L|L].
  - assert (L' : String.length data = 11%nat) by lia.
    destruct (forallb _ (map charCode (splitChars data))) eqn:E.
    + assert (F : Forall isDigitChar (splitChars data)) by (now apply D).
      split; [intros _ _; rewrite L; reflexivity|].
      split; [intros H; contradiction|].
      split; [intros _ H; contradiction|].
      split; [intros _; split; assumption | reflexivity].
    + assert (F : ~ Forall isDigitChar (splitChars data)).
      { intros F. apply D in F. discriminate F. }
      split; [intros _ H; contradiction|].
      split; [intros H; contradiction|].
      split; [reflexivity|].
      split; [discriminate | intros [_ H]; contradiction].
  - assert (L' : String.length data <> 11%nat) by lia.
    split; [intros H; contradiction|].
    split; [reflexivity|].
    split; [intros H; contradiction|].
    split; [discriminate | intros [H _]; contradiction].
Qed.

Lemma printBarcodeUpcA_spec_witness :
  printBarcodeUpcA "12345678901"
  = Ok [0x1d; 0x6b; 65; 11; 49; 50; 51; 52; 53; 54; 55; 56; 57; 48; 49]
  /\ printBarcodeUpcA "1234567890" = AssertionError "data.length == 11"
  /\ printBarcodeUpcA "1234567890a"
     = AssertionError
         "codes.every(charCode => charCode >= 48 && charCode <= 57)".
Proof.
  split; [|split].
  - apply (proj1 (printBarcodeUpcA_spec "12345678901")).
    + reflexivity.
    + apply digits_every. vm_compute. reflexivity.
  - apply (proj1 (proj2 (printBarcodeUpcA_spec "1234567890"))).
    simpl. discriminate.
  - apply (proj1 (proj2 (proj2 (printBarcodeUpcA_spec "1234567890a")))).
    + reflexivity.
    + intros F. apply digits_every in F. vm_compute in F. discriminate F.
Defined.

End BarcodeEncoder.

(** ** Further properties of the encoder *)

(** *** Commands with two-byte fields *)
Section TwoByteFields.

Lemma bind_byteSplit {A} (n : Z) (f : list Z -> result A) :
  0 <= n <= 65535 -> (byteSplit n ≫= f) = f [n mod 256; n / 256].
Proof. intros H. now rewrite byteSplit_in_range. Qed.

Lemma byteSplit_ok_iff (n : Z) : is_ok (byteSplit n) = true <-> 0 <= n <= 65535.
Proof.
  destruct (Z_lt_le_dec n 0) as [Hneg|Hpos].
  - rewrite byteSplit_negative by lia. cbn. split; [discriminate | lia].
  - destruct (Z_le_gt_dec n 65535) as [Hle|Hgt].
    + rewrite byteSplit_in_range by lia. cbn. split; [lia | reflexivity].
    + rewrite byteSplit_too_large by lia. cbn. split; [discriminate | lia].
Qed.

Lemma bind_byteSplit_fails {A} (n : Z) (f : list Z -> result A) :
  ~ 0 <= n <= 65535 -> is_ok (byteSplit n ≫= f) = false.
Proof.
  intros H. destruct (Z_lt_le_dec n 0) as [Hneg|Hpos].
  - now rewrite byteSplit_negative by lia.
  - now rewrite byteSplit_too_large by lia.
Qed.

(** X1: the four commands with one two-byte field (ESC $, GS $, GS L and
    GS W) accept exactly the integers of [0,65535]: such an n is emitted
    after the opcode as two bytes nL, nH with nL + 256 * nH = n, and any
    other n makes all four fail. *)
Theorem two_byte_field_commands (n : Z) :
  (0 <= n <= 65535 ->
     exists nL nH : Z,
       isByte nL /\ isByte nH /\ compose nL nH = n
       /\ setAbsolutePrintPosition n = Ok [ESC; 0x24; nL; nH]
       /\ setAbsoluteVerticalPrintPositionInPageMode n = Ok [GS; 0x24; nL; nH]
       /\ setLeftMargin n = Ok [GS; 0x4C; nL; nH]
       /\ setPrintAreaWidth (Some n) = Ok [GS; 0x57; nL; nH])
  /\ (~ 0 <= n <= 65535 ->
        is_ok (setAbsolutePrintPosition n) = false
        /\ is_ok (setAbsoluteVerticalPrintPositionInPageMode n) = false
        /\ is_ok (setLeftMargin n) = false
        /\ is_ok (setPrintAreaWidth (Some n)) = false).
Proof.
  split.
  - intros H. exists (n mod 256), (n / 256).
    destruct (byteSplit_bytes n H) as [Hlo Hhi].
    split; [exact Hlo|]. split; [exact Hhi|]. split; [apply compose_div_mod|].
    unfold setAbsolutePrintPosition, setAbsoluteVerticalPrintPositionInPageMode,
      setLeftMargin, setPrintAreaWidth. cbn [default from_option id].
    rewrite !bind_byteSplit by exact H. repeat split; reflexivity.
  - intros H.
    unfold setAbsolutePrintPosition, setAbsoluteVerticalPrintPositionInPageMode,
      setLeftMargin, setPrintAreaWidth. cbn [default from_option id].
    repeat split; apply bind_byteSplit_fails; exact H.
Qed.

Lemma two_byte_field_commands_witness :
  (exists nL nH : Z,
      compose nL nH = 300 /\ setLeftMargin 300 = Ok [GS; 0x4C; nL; nH])
  /\ is_ok (setAbsolutePrintPosition 65536) = false.
Proof.
  split.
  - destruct (proj1 (two_byte_field_commands 300))
      as (nL & nH & _ & _ & C & _ & _ & E & _); [lia|].
    exists nL, nH. split; [exact C | exact E].
  - apply (proj2 (two_byte_field_commands 65536)). lia.
Defined.

(** X2: ESC W is accepted exactly when each of its four arguments is in
    [0,65535], a width or height of 0 included, and then returns the opcode
    and the four fields in the order origin x, origin y, width, height, each
    as low byte then high byte. *)
Theorem setPrintAreaInPageMode_fields (originX originY width height : Z) :
  (is_ok (setPrintAreaInPageMode originX originY width height) = true
   <-> 0 <= originX <= 65535 /\ 0 <= originY <= 65535
       /\ 0 <= width <= 65535 /\ 0 <= height <= 65535)
  /\ forall out : list Z,
       setPrintAreaInPageMode originX originY width height = Ok out ->
       out = [ESC; 0x57;
              originX mod 256; originX / 256; originY mod 256; originY / 256;
              width mod 256; width / 256; height mod 256; height / 256]
       /\ allBytes out.
Proof.
  unfold setPrintAreaInPageMode.
  destruct (decide (0 <= originX <= 65535)) as [Hx|Hx];
    [rewrite (bind_byteSplit originX) by exact Hx
    |split; [split; [intros E; rewrite bind_byteSplit_fails in E by exact Hx;
                     discriminate E | tauto]
            |intros out E; apply (f_equal is_ok) in E;
             rewrite bind_byteSplit_fails in E by exact Hx; discriminate E]].
  destruct (decide (0 <= originY <= 65535)) as [Hy|Hy];
    [rewrite (bind_byteSplit originY) by exact Hy
    |split; [split; [intros E; rewrite bind_byteSplit_fails in E by exact Hy;
                     discriminate E | tauto]
            |intros out E; apply (f_equal is_ok) in E;
             rewrite bind_byteSplit_fails in E by exact Hy; discriminate E]].
  destruct (decide (0 <= width <= 65535)) as [Hw|Hw];
    [rewrite (bind_byteSplit width) by exact Hw
    |split; [split; [intros E; rewrite bind_byteSplit_fails in E by exact Hw;
                     discriminate E | tauto]
            |intros out E; apply (f_equal is_ok) in E;
             rewrite bind_byteSplit_fails in E by exact Hw; discriminate E]].
  destruct (decide (0 <= height <= 65535)) as [Hh|Hh];
    [rewrite (bind_byteSplit height) by exact Hh
    |split; [split; [intros E; rewrite bind_byteSplit_fails in E by exact Hh;
                     discriminate E | tauto]
            |intros out E; apply (f_equal is_ok) in E;
             rewrite bind_byteSplit_fails in E by exact Hh; discriminate E]].
  split; [split; [tauto | reflexivity]|].
  intros out E. injection E as <-. split; [reflexivity|].
  destruct (byteSplit_bytes _ Hx), (byteSplit_bytes _ Hy),
    (byteSplit_bytes _ Hw), (byteSplit_bytes _ Hh).
  unfold allBytes.
  repeat (apply Forall_cons; split; [first [assumption | unfold isByte, ESC; lia]|]).
  apply Forall_nil. exact I.
Qed.

Lemma setPrintAreaInPageMode_fields_witness :
  setPrintAreaInPageMode 0 0 512 0 = Ok [ESC; 0x57; 0; 0; 0; 0; 0; 2; 0; 0]
  /\ allBytes [ESC; 0x57; 0; 0; 0; 0; 0; 2; 0; 0].
Proof.
  split; [reflexivity|].
  exact (proj2 (proj2 (setPrintAreaInPageMode_fields 0 0 512 0)
                  [ESC; 0x57; 0; 0; 0; 0; 0; 2; 0; 0] eq_refl)).
Defined.

End TwoByteFields.

(** *** Commands with one-byte parameters *)
Section OneByteParameters.

Lemma Forall_every {A} (P : A -> Prop) (f : A -> bool) (xs : list A) :
  (forall x, f x = true <-> P x) ->
  forallb f xs = true <-> Forall P xs.
Proof.
  intros Hf. induction xs as [|x xs IH]; cbn [forallb].
  - split; [constructor | reflexivity].
  - rewrite andb_true_iff, IH, Forall_cons, Hf. tauto.
Qed.

Lemma untilNul_terminated (stops rest : list Z) :
  Forall (fun stop => 1 <= stop <= 255) stops ->
  untilNul (stops ++ 0 :: rest) = stops.
Proof.
  induction 1 as [|stop stops Hstop _ IH]; [reflexivity|].
  cbn [app untilNul]. replace (stop =? 0) with false by lia.
  now rewrite IH.
Qed.

(** X3: ESC D accepts exactly the lists of at most 32 tab stops, each in
    [1,255]; it returns the opcode, the stops as they are and a final NUL,
    all bytes, and the stops are read back as the parameters before the first
    NUL.  A longer list fails the length assertion, a stop outside [1,255]
    the range assertion, and the omitted argument stands for the 31 default
    stops. *)
Theorem setHorizontalTabPositions_roundtrip (tabStops : list Z) :
  (len tabStops <= 32 ->
   Forall (fun stop => 1 <= stop <= 255) tabStops ->
     setHorizontalTabPositions (Some tabStops)
     = Ok ([ESC; 0x44] ++ tabStops ++ [0])
     /\ allBytes ([ESC; 0x44] ++ tabStops ++ [0])
     /\ untilNul (drop 2 ([ESC; 0x44] ++ tabStops ++ [0])) = tabStops)
  /\ (32 < len tabStops ->
        setHorizontalTabPositions (Some tabStops)
        = AssertionError "tabStops.length <= 32")
  /\ (len tabStops <= 32 ->
      ~ Forall (fun stop => 1 <= stop <= 255) tabStops ->
        setHorizontalTabPositions (Some tabStops)
        = AssertionError "tabStops.every(stop => stop >= 1 && stop <= 255)")
  /\ setHorizontalTabPositions None
     = Ok ([ESC; 0x44] ++ DEFAULT_TAB_STOPS ++ [0]).
Proof.
  assert (Every :
    forallb (fun stop => (1 <=? stop) && (stop <=? 255)) tabStops = true
    <-> Forall (fun stop => 1 <= stop <= 255) tabStops).
  { apply Forall_every. intros x. rewrite andb_true_iff, !Z.leb_le. tauto. }
  unfold setHorizontalTabPositions. cbn [default from_option id].
  split; [|split; [|split; [|reflexivity]]].
  - intros Hlen Hstops. rewrite !bind_assert.
    replace (len tabStops <=? 32) with true by lia.
    rewrite (proj2 Every Hstops). split; [reflexivity|]. split.
    + unfold allBytes. apply Forall_cons. split; [unfold isByte, ESC; lia|].
      apply Forall_cons. split; [unfold isByte; lia|].
      apply Forall_app. split.
      * eapply Forall_impl; [exact Hstops|].
        intros x Hx. cbv beta in Hx. unfold isByte. lia.
      * apply Forall_cons. split; [unfold isByte; lia | apply Forall_nil; exact I].
    + cbn [app drop]. now apply untilNul_terminated.
  - intros Hlen. rewrite !bind_assert.
    replace (len tabStops <=? 32) with false by lia. reflexivity.
  - intros Hlen Hstops. rewrite !bind_assert.
    replace (len tabStops <=? 32) with true by lia.
    destruct (forallb _ tabStops) eqn:E; [|reflexivity].
    exfalso. apply Hstops, Every. reflexivity.
Qed.

Lemma setHorizontalTabPositions_roundtrip_witness :
  (setHorizontalTabPositions (Some [8; 16]) = Ok [ESC; 0x44; 8; 16; 0]
   /\ untilNul [8; 16; 0] = [8; 16])
  /\ setHorizontalTabPositions (Some (replicate 33 1%Z))
     = AssertionError "tabStops.length <= 32"
  /\ setHorizontalTabPositions (Some [8; 0; 16])
     = AssertionError "tabStops.every(stop => stop >= 1 && stop <= 255)".
Proof.
  split; [|split].
  - destruct (proj1 (setHorizontalTabPositions_roundtrip [8; 16]))
      as (E & _ & R).
    + unfold len. simpl. lia.
    + repeat (apply Forall_cons; split; [lia|]). apply Forall_nil. exact I.
    + split; [exact E | exact R].
  - apply (proj1 (proj2 (setHorizontalTabPositions_roundtrip (replicate 33 1)))).
    unfold len. simpl. lia.
  - apply (proj1 (proj2 (proj2 (setHorizontalTabPositions_roundtrip [8; 0; 16])))).
    + unfold len. simpl. lia.
    + intros F. apply Forall_cons in F as [_ F]. apply Forall_cons in F as [F _].
      lia.
Defined.

Ltac range_cases n :=
  intros n; rewrite ?bind_assert;
  repeat match goal with
         | |- context [if ?c then _ else _] => destruct c eqn:?
         end;
  first [ left; split; [lia | reflexivity]
        | right; split; [lia | reflexivity] ].

(** X4: the commands with one numeric parameter accept exactly their range
    and emit the accepted parameter, unchanged, after the opcode: ESC J
    [0,255], ESC 3 [0,255], ESC d [1,255], GS h [1,255], ESC ? [32,126] and
    ESC T [1,3], so that 0, the direction left to right, is refused.  The
    omitted argument is 0 for ESC J, and selects ESC 2 for the line
    spacing. *)
Theorem one_parameter_ranges :
  acceptsExactly (fun n => printAndFeedPaper (Some n)) [ESC; 0x4a] 0 255
  /\ acceptsExactly (fun n => setLineSpacing (Some n)) [ESC; 0x33] 0 255
  /\ acceptsExactly printAndFeedLines [ESC; 0x64] 1 255
  /\ acceptsExactly setBarcodeHeight [GS; 0x68] 1 255
  /\ acceptsExactly cancelUserDefinedCharacters [ESC; 0x3F] 32 126
  /\ acceptsExactly selectPrintDirectionInPageMode [ESC; 0x54] 1 3
  /\ printAndFeedPaper None = Ok [ESC; 0x4a; 0]
  /\ setLineSpacing None = Ok [ESC; 0x32].
Proof.
  unfold printAndFeedPaper, setLineSpacing, printAndFeedLines, setBarcodeHeight,
    cancelUserDefinedCharacters, selectPrintDirectionInPageMode.
  cbn [default from_option id].
  split; [range_cases n|]. split; [range_cases n|]. split; [range_cases n|].
  split; [range_cases n|]. split; [range_cases n|]. split; [range_cases n|].
  split; reflexivity.
Qed.

(** X5: GS P accepts exactly the pairs with both motion units in [1,255], and
    emits them in the order x, y after the opcode. *)
Theorem setHorizontalAndVerticalMotionUnits_range (x y : Z) :
  (1 <= x <= 255 /\ 1 <= y <= 255
   /\ setHorizontalAndVerticalMotionUnits x y = Ok [GS; 0x50; x; y])
  \/ (~ (1 <= x <= 255 /\ 1 <= y <= 255)
      /\ is_ok (setHorizontalAndVerticalMotionUnits x y) = false).
Proof.
  unfold setHorizontalAndVerticalMotionUnits. rewrite !bind_assert.
  destruct (0 <? x) eqn:E1; [|right; split; [lia | reflexivity]].
  destruct (x <=? 255) eqn:E2; [|right; split; [lia | reflexivity]].
  destruct (0 <? y) eqn:E3; [|right; split; [lia | reflexivity]].
  destruct (y <=? 255) eqn:E4; [|right; split; [lia | reflexivity]].
  left. split; [lia|]. split; [lia | reflexivity].
Qed.

(** X6: ESC - validates the thickness also when it turns the underline off:
    a thickness of 1 or 2 is accepted and emitted when the underline is
    enabled, 0 is emitted when it is disabled, and any other thickness fails
    whatever [enable] is. *)
Theorem underline_thickness (enable : bool) (thickness : Z) :
  (1 <= thickness <= 2
   /\ underline (Some enable) (Some thickness)
      = Ok [ESC; 0x2d; if enable then thickness else 0])
  \/ (~ 1 <= thickness <= 2
      /\ underline (Some enable) (Some thickness)
         = AssertionError "thickness > 0 && thickness <= 2").
Proof.
  unfold underline. cbn [default from_option id]. rewrite bind_assert.
  destruct ((0 <? thickness) && (thickness <=? 2)) eqn:E.
  - left. split; [lia|]. destruct enable; reflexivity.
  - right. split; [lia | reflexivity].
Qed.

(** X7: cut refuses a feed below 0 or above 255 and writes nothing to the
    console then; of the accepted feeds only 0, the default cut, writes its
    note to the console. *)
Theorem cut_range_and_console (n : Z) :
  (n < 0 -> cut (Some n) = ([], AssertionError "feedVertical >= 0"))
  /\ (255 < n -> cut (Some n) = ([], AssertionError "feedVertical <= 255"))
  /\ (1 <= n <= 255 -> cut (Some n) = ([], Ok [GS; 0x56; 65; n]))
  /\ (n = 0 -> cut (Some n)
               = (["check if this is doing a full cut or partial"],
                  Ok [GS; 0x56; 1])).
Proof.
  unfold cut. cbn [default from_option id]. rewrite bind_assert. unfold assert.
  repeat split; intros H.
  - replace (0 <=? n) with false by lia. reflexivity.
  - replace (0 <=? n) with true by lia.
    replace (n <=? 255) with false by lia. reflexivity.
  - replace (0 <=? n) with true by lia.
    replace (n <=? 255) with true by lia.
    replace (0 <? n) with true by lia. reflexivity.
  - subst n. reflexivity.
Qed.

Lemma cut_range_and_console_witness :
  cut (Some (-1)) = ([], AssertionError "feedVertical >= 0")
  /\ cut (Some 256) = ([], AssertionError "feedVertical <= 255")
  /\ cut (Some 3) = ([], Ok [GS; 0x56; 65; 3])
  /\ cut (Some 0) = (["check if this is doing a full cut or partial"],
                     Ok [GS; 0x56; 1]).
Proof.
  split; [|split; [|split]].
  - apply (proj1 (cut_range_and_console (-1))). lia.
  - apply (proj1 (proj2 (cut_range_and_console 256))). lia.
  - apply (proj1 (proj2 (proj2 (cut_range_and_console 3)))). lia.
  - apply (proj2 (proj2 (proj2 (cut_range_and_console 0)))). reflexivity.
Defined.

(** X8: on the accepted sizes GS ! emits the element
    256 * (width - 1) + 16 * (height - 1); it is a byte exactly when the
    width is 1, and its low byte, 16 * (height - 1), does not depend on the
    width. *)
Theorem selectCharacterSize_element (width height : Z) :
  1 <= width <= 8 -> 1 <= height <= 8 ->
  exists n : Z,
    selectCharacterSize (Some width) (Some height) = Ok [GS; 0x21; n]
    /\ n = 256 * (width - 1) + 16 * (height - 1)
    /\ (isByte n <-> width = 1)
    /\ n mod 256 = 16 * (height - 1).
Proof.
  intros Hw Hh. exists (256 * (width - 1) + 16 * (height - 1)).
  split; [now apply selectCharacterSize_value|]. split; [reflexivity|].
  split; [unfold isByte; lia|].
  replace (256 * (width - 1) + 16 * (height - 1))
    with (16 * (height - 1) + (width - 1) * 256) by lia.
  rewrite Z.mod_add by lia. apply Z.mod_small. lia.
Qed.

Lemma selectCharacterSize_element_witness :
  exists n : Z,
    selectCharacterSize (Some 3) (Some 2) = Ok [GS; 0x21; n]
    /\ n = 256 * (3 - 1) + 16 * (2 - 1)
    /\ (isByte n <-> 3 = 1)
    /\ n mod 256 = 16 * (2 - 1).
Proof. apply (selectCharacterSize_element 3 2); lia. Defined.

End OneByteParameters.

(** *** The mapping tables *)
Section MappingTables.

Lemma values_distinct (l : list (string * Z)) (a b : string) (v : Z) :
  NoDup l.*2 -> (a, v) ∈ l -> (b, v) ∈ l -> a = b.
Proof.
  induction l as [|[k w] l IH]; intros Hnd Ha Hb.
  - apply elem_of_nil in Ha. contradiction.
  - cbn [fmap list_fmap snd] in Hnd. apply NoDup_cons in Hnd as [Hw Hnd].
    apply elem_of_cons in Ha as [Ha|Ha]; apply elem_of_cons in Hb as [Hb|Hb].
    + congruence.
    + exfalso. apply Hw. injection Ha as -> ->.
      apply list_elem_of_fmap. exists (b, w). split; [reflexivity | exact Hb].
    + exfalso. apply Hw. injection Hb as -> ->.
      apply list_elem_of_fmap. exists (a, w). split; [reflexivity | exact Ha].
    + now apply IH.
Qed.

Lemma table_readable (l : list (string * Z)) (opcode : list Z) :
  NoDup l.*2 ->
  readable (fun name => Ok (map JNum opcode ++ [getProp (list_to_map l) name]))
           (list_to_map l).
Proof.
  intros Hnd name1 name2 [v Hv] E.
  injection E as E. apply app_inv_head in E. injection E as E.
  assert (E1 : getProp (list_to_map l) name1 = JNum v) by (now apply getProp_number).
  rewrite E in E1. apply getProp_number in E1.
  apply elem_of_list_to_map_2 in Hv, E1.
  exact (values_distinct l name1 name2 v Hnd Hv E1).
Qed.

Lemma table_byteValued (l : list (string * Z)) :
  Forall (fun p => isByte p.2) l -> byteValued (list_to_map l).
Proof.
  intros Hl name v Hv. apply elem_of_list_to_map_2 in Hv.
  rewrite Forall_forall in Hl. exact (Hl _ Hv).
Qed.

Ltac distinct_values := apply (bool_decide_unpack _); vm_compute; exact I.
Ltac byte_values :=
  repeat (apply Forall_cons; split; [unfold isByte; cbn [snd]; lia|]);
  apply Forall_nil; exact I.

(** X9: every mapping table sends different names to different wire values,
    all of them bytes, so that a name of the table can be read back from what
    its encoder returns: no other name, in the table or not, gives the same
    result. *)
Theorem enumerated_choice_readable :
  (readable selectFont fontMap /\ byteValued fontMap)
  /\ readable selectFontForBarcodeHriCharacters fontMap
  /\ (readable selectCharacterCodeTable characterCodeTableMap
      /\ byteValued characterCodeTableMap)
  /\ (readable selectInternationalCharacterSet internationalCharacterSetMap
      /\ byteValued internationalCharacterSetMap)
  /\ (readable selectPrintPositionOfBarcodeHriCharacters
               printPositionOfHriCharactersMap
      /\ byteValued printPositionOfHriCharactersMap).
Proof.
  split; [split|split; [|split; [split|split; split]]].
  - apply (table_readable _ [ESC; 0x4d]). distinct_values.
  - apply table_byteValued. byte_values.
  - apply (table_readable _ [GS; 0x66]). distinct_values.
  - apply (table_readable _ [ESC; 0x74]). distinct_values.
  - apply table_byteValued. byte_values.
  - apply (table_readable _ [ESC; 0x52]). distinct_values.
  - apply table_byteValued. byte_values.
  - apply (table_readable _ [GS; 0x48]). distinct_values.
  - apply table_byteValued. byte_values.
Qed.

Lemma enumerated_choice_readable_witness :
  "wpc1252"%string = "wpc1252"%string.
Proof.
  apply (proj1 (proj1 (proj2 (proj2 enumerated_choice_readable)))
           "wpc1252"%string "wpc1252"%string).
  - exists 16. vm_compute. reflexivity.
  - reflexivity.
Defined.

(** X10: ESC a never fails: left, centered and right are encoded as 0, 1 and
    2, and every other string is encoded too, as -1. *)
Theorem selectJustification_total (justification : string) :
  exists value : Z,
    selectJustification (Some justification) = Ok [ESC; 0x61; value]
    /\ ((justification = "left" /\ value = 0)
        \/ (justification = "centered" /\ value = 1)
        \/ (justification = "right" /\ value = 2)
        \/ (justification <> "left" /\ justification <> "centered"
            /\ justification <> "right" /\ value = -1)).
Proof.
  exists (indexOf ["left"; "centered"; "right"] justification).
  split; [apply selectJustification_never_fails|].
  unfold indexOf. cbn [indexOfFrom].
  destruct (decide ("left" = justification)) as [<-|H1]; [tauto|].
  destruct (decide ("centered" = justification)) as [<-|H2]; [tauto|].
  destruct (decide ("right" = justification)) as [<-|H3]; [tauto|].
  right. right. right. repeat split; congruence.
Qed.

End MappingTables.

(** *** User-defined characters *)
Section UserDefinedCharacters.

Lemma foldl_push {A B} (f : B -> A) (l : list B) (a : list A) :
  foldl (fun a y => a ++ [f y]) a l = a ++ (f <$> l).
Proof.
  revert a. induction l as [|y l IH]; intros a; cbn [foldl fmap list_fmap].
  - now rewrite app_nil_r.
  - rewrite IH, <- app_assoc. reflexivity.
Qed.

Lemma foldl_append {A B} (F : list A -> B -> list A) (g : B -> list A)
    (l : list B) (a : list A) :
  (forall a x, F a x = a ++ g x) -> foldl F a l = a ++ mjoin (g <$> l).
Proof.
  intros HF. revert a.
  induction l as [|x l IH]; intros a; cbn [foldl fmap list_fmap].
  - cbn. now rewrite app_nil_r.
  - rewrite IH, HF, <- app_assoc. reflexivity.
Qed.

Lemma glyphColumns_cells (character : list (list Z)) (w : nat) (a : list Z) :
  glyphColumns character w a
  = a ++ mjoin ((fun x : nat =>
                   (fun y : nat => glyphCell character y x) <$> seq 0 w)
                <$> seq 0 w).
Proof.
  unfold glyphColumns. apply foldl_append. intros a' x. apply foldl_push.
Qed.

Lemma every_line_length (character : list (list Z)) (line0 : list Z) :
  forallb (fun line => len line =? len line0) character = true
  <-> Forall (fun line => length line = length line0) character.
Proof.
  apply Forall_every. intros line. unfold len. rewrite Z.eqb_eq. lia.
Qed.

(** X11: ESC & is accepted exactly when the start of the code range is at
    least 32, its end at most 126, and [data] holds one character, of
    [verticalBytes] lines, not empty, whose lines all have the length of the
    first: the number of characters is compared with 1 whatever the range
    is, and the two ends of the range are never compared with each
    other. *)
Theorem defineUserDefinedCharacterSet_accepts
    (verticalBytes characterCodeRangeStart characterCodeRangeEnd : Z)
    (data : list (list (list Z))) :
  is_ok (defineUserDefinedCharacterSet verticalBytes characterCodeRangeStart
           characterCodeRangeEnd data) = true
  <-> 32 <= characterCodeRangeStart /\ characterCodeRangeEnd <= 126
      /\ exists (character : list (list Z)) (line0 : list Z),
           data = [character]
           /\ len character = verticalBytes
           /\ character !! 0%nat = Some line0
           /\ Forall (fun line => length line = length line0) character.
Proof.
  unfold defineUserDefinedCharacterSet. rewrite !bind_assert.
  rewrite Z.leb_refl.
  replace (characterCodeRangeEnd - characterCodeRangeEnd + 1) with 1 by lia.
  destruct (Z.leb_spec 32 characterCodeRangeStart) as [Hs|Hs];
    [|split; [discriminate | lia]].
  destruct (Z.leb_spec characterCodeRangeEnd 126) as [He|He];
    [|split; [discriminate | lia]].
  destruct data as [|character [|character2 rest]].
  - split; [discriminate|]. intros (_ & _ & c & l & H & _). discriminate H.
  - change (len [character] <=? 255) with true.
    change (len [character] =? 1) with true.
    cbn [forallb]. rewrite !andb_true_r.
    destruct (Z.eqb_spec (len character) verticalBytes) as [Hvb|Hvb].
    + destruct (character !! 0%nat) as [line0|] eqn:E0.
      * destruct (forallb (fun line => len line =? len line0) character) eqn:F.
        -- cbn [glyphLoop]. rewrite E0. split; [|reflexivity].
           intros _. split; [exact Hs|]. split; [exact He|].
           exists character, line0. split; [reflexivity|]. split; [exact Hvb|].
           split; [exact E0|]. now apply every_line_length.
        -- split; [discriminate|].
           intros (_ & _ & c & l & Hc & _ & El & HF).
           injection Hc as <-. rewrite E0 in El. injection El as <-.
           apply every_line_length in HF. congruence.
      * destruct character as [|line0 lines]; [|discriminate E0].
        cbn. split; [discriminate|].
        intros (_ & _ & c & l & Hc & _ & El & _).
        injection Hc as <-. discriminate El.
    + split; [discriminate|].
      intros (_ & _ & c & l & Hc & Hl & _). injection Hc as <-. contradiction.
  - assert (Hlen : (len (character :: character2 :: rest) =? 1) = false).
    { apply Z.eqb_neq. unfold len. rewrite !length_cons. lia. }
    rewrite Hlen. destruct (len (character :: character2 :: rest) <=? 255);
      (split; [discriminate|]);
      intros (_ & _ & c & l & Hc & _); discriminate Hc.
Qed.

(** X12: an accepted character is emitted as the opcode, [verticalBytes],
    the two ends of the code range and the length w of its first line,
    followed by w * w cells column by column: cell x * w + y is the element
    x of line y, and 0 where the character has no line y. *)
Theorem defineUserDefinedCharacterSet_layout
    (verticalBytes characterCodeRangeStart characterCodeRangeEnd : Z)
    (character : list (list Z)) (line0 : list Z) :
  32 <= characterCodeRangeStart -> characterCodeRangeEnd <= 126 ->
  len character = verticalBytes ->
  character !! 0%nat = Some line0 ->
  Forall (fun line => length line = length line0) character ->
  exists cells : list Z,
    defineUserDefinedCharacterSet verticalBytes characterCodeRangeStart
      characterCodeRangeEnd [character]
    = Ok ([ESC; 0x26; verticalBytes; characterCodeRangeStart;
           characterCodeRangeEnd; len line0] ++ cells)
    /\ length cells = (length line0 * length line0)%nat
    /\ forall x y : nat,
         (x < length line0)%nat -> (y < length line0)%nat ->
         cells !! (x * length line0 + y)%nat
         = Some (match character !! y with
                 | Some line => default 0 (line !! x)
                 | None => 0
                 end).
Proof.
  intros Hs He Hvb E0 HF.
  set (w := length line0).
  set (columns := (fun x : nat =>
                     (fun y : nat => glyphCell character y x) <$> seq 0 w)
                  <$> seq 0 w).
  assert (Hcols : Forall (fun l => length l = w) columns).
  { apply Forall_fmap, Forall_forall. intros x _.
    change (length ((fun y : nat => glyphCell character y x) <$> seq 0 w) = w).
    now rewrite length_fmap, length_seq. }
  exists (mjoin columns). split; [|split].
  - unfold defineUserDefinedCharacterSet. rewrite !bind_assert.
    rewrite Z.leb_refl.
    replace (characterCodeRangeEnd - characterCodeRangeEnd + 1) with 1 by lia.
    replace (32 <=? characterCodeRangeStart) with true by lia.
    replace (characterCodeRangeEnd <=? 126) with true by lia.
    change (len [character] <=? 255) with true.
    change (len [character] =? 1) with true.
    cbn [forallb]. rewrite !andb_true_r.
    replace (len character =? verticalBytes) with true by lia.
    rewrite E0. rewrite (proj2 (every_line_length character line0) HF).
    cbn [glyphLoop]. rewrite E0, glyphColumns_cells. reflexivity.
  - rewrite (join_uniform_length _ _ Hcols). unfold columns.
    now rewrite length_fmap, length_seq.
  - intros x y Hx Hy.
    apply (join_lookup_Some_same_length' _ _ _ _ _ Hcols Hy).
    exists ((fun y : nat => glyphCell character y x) <$> seq 0 w). split.
    + unfold columns. rewrite list_lookup_fmap, lookup_seq_lt by exact Hx.
      reflexivity.
    + rewrite list_lookup_fmap, lookup_seq_lt by exact Hy. reflexivity.
Qed.

Lemma defineUserDefinedCharacterSet_layout_witness :
  exists cells : list Z,
    defineUserDefinedCharacterSet 3 65 65 [[[1; 2]; [3; 4]; [5; 6]]]
    = Ok ([ESC; 0x26; 3; 65; 65; 2] ++ cells)
    /\ length cells = 4%nat
    /\ cells !! 1%nat = Some 3.
Proof.
  destruct (defineUserDefinedCharacterSet_layout 3 65 65
              [[1; 2]; [3; 4]; [5; 6]] [1; 2])
    as (cells & E & L & C).
  - lia.
  - lia.
  - reflexivity.
  - reflexivity.
  - repeat (apply Forall_cons; split; [reflexivity|]). apply Forall_nil. exact I.
  - exists cells. split; [exact E|]. split; [exact L|].
    apply (C 0%nat 1%nat); simpl; lia.
Defined.

End UserDefinedCharacters.

(** *** More on the raster image encoder *)
Section RasterImageMore.

(** The result on a rectangular grid within the bounds. *)
Lemma printRasterBitImage_rect (data : list (list Z)) (width : nat)
    (verticalScale horizontalScale : option Z) :
  1 <= len data <= 65535 -> 1 <= Z.of_nat width <= 65535 ->
  rectangular width data ->
  printRasterBitImage data verticalScale horizontalScale
  = Ok ([GS; 0x76; 0x30;
         (default 1 verticalScale - 1) * 2 + (default 1 horizontalScale - 1)]
        ++ [Z.of_nat ((width + 7) / 8) mod 256; Z.of_nat ((width + 7) / 8) / 256]
        ++ [len data mod 256; len data / 256]
        ++ mjoin (rowBytes <$> data)).
Proof.
  intros Hh Hw Hrect. pose proof (ceil8_bounds width) as Hwb.
  unfold printRasterBitImage. rewrite !bind_assert.
  unfold len in Hh.
  destruct data as [|row0 rest]; [cbn in Hh; lia|].
  assert (Hrow0 : length row0 = width) by (inversion Hrect; assumption).
  replace (1 <=? len (row0 :: rest)) with true by (unfold len; lia).
  replace (len (row0 :: rest) <? 65536) with true by (unfold len; lia).
  rewrite !bind_assert.
  replace (1 <=? len row0) with true by (unfold len; lia).
  replace (len row0 <? 65536) with true by (unfold len; lia).
  rewrite rectangular_every by (rewrite Hrow0; exact Hrect).
  replace (ceilDiv (len row0) 8) with (Z.of_nat ((width + 7) / 8))
    by (unfold len; now rewrite ceilDiv_8, Hrow0).
  rewrite !byteSplit_in_range by (unfold len; lia).
  unfold len. rewrite packRows_bytes. reflexivity.
Qed.

Lemma rowBytes_uniform (data : list (list Z)) (width : nat) :
  rectangular width data ->
  Forall (fun l => length l = ((width + 7) / 8)%nat) (rowBytes <$> data).
Proof.
  intros Hrect. apply Forall_fmap. eapply Forall_impl; [exact Hrect|].
  intros row Hrow.
  change (length (rowBytes row) = ((width + 7) / 8)%nat).
  now rewrite rowBytes_length, Hrow.
Qed.

(** Byte [j] of row [r] among the bytes of a rectangular grid. *)
Lemma rowBytes_join_lookup (data : list (list Z)) (width : nat)
    (r j : nat) (row : list Z) :
  rectangular width data -> data !! r = Some row ->
  (j < (width + 7) / 8)%nat ->
  mjoin (rowBytes <$> data) !! (r * ((width + 7) / 8) + j)%nat
  = Some (packByte row (8 * j)).
Proof.
  intros Hrect Hrow Hj.
  assert (Hlen : length row = width).
  { eapply Forall_lookup_1 in Hrect; [exact Hrect | exact Hrow]. }
  apply (join_lookup_Some_same_length' _ _ _ _ _ (rowBytes_uniform _ _ Hrect) Hj).
  exists (rowBytes row). split.
  - rewrite list_lookup_fmap, Hrow. reflexivity.
  - apply rowBytes_lookup. now rewrite Hlen.
Qed.

Lemma len_cons {A} (x : A) (xs : list A) : len (x :: xs) = 1 + len xs.
Proof. unfold len. rewrite length_cons. lia. Qed.

Lemma every_rectangular (data : list (list Z)) (row0 : list Z) :
  forallb (fun line => len line =? len row0) data = true
  <-> rectangular (length row0) data.
Proof.
  apply Forall_every. intros line. unfold len. rewrite Z.eqb_eq. lia.
Qed.

(** X13: GS v 0 is accepted exactly on the grids of 1 to 65535 rows that all
    have the same length, between 1 and 65535.  An empty grid fails the first
    assertion, an empty first row the third, and a row that differs in length
    from the first the assertion on every row. *)
Theorem printRasterBitImage_validation (data : list (list Z))
    (verticalScale horizontalScale : option Z) :
  (is_ok (printRasterBitImage data verticalScale horizontalScale) = true
   <-> 1 <= len data <= 65535
       /\ exists width : nat,
            1 <= Z.of_nat width <= 65535 /\ rectangular width data)
  /\ (data = [] ->
        printRasterBitImage data verticalScale horizontalScale
        = AssertionError "data.length >= 1")
  /\ (forall rest : list (list Z),
        data = [] :: rest -> len data <= 65535 ->
        printRasterBitImage data verticalScale horizontalScale
        = AssertionError "data[0]!.length >= 1")
  /\ (forall (row0 : list Z) (rest : list (list Z)),
        data = row0 :: rest -> len data <= 65535 ->
        1 <= len row0 <= 65535 -> ~ rectangular (length row0) rest ->
        printRasterBitImage data verticalScale horizontalScale
        = AssertionError
            "data.every(line => data[0] && line.length == data[0].length)").
Proof.
  split; [|split; [|split]].
  - split.
    + unfold printRasterBitImage. rewrite !bind_assert.
      destruct (Z.leb_spec 1 (len data)) as [H1|H1]; [|discriminate].
      destruct (Z.ltb_spec (len data) 65536) as [H2|H2]; [|discriminate].
      destruct data as [|row0 rest]; [discriminate|].
      rewrite !bind_assert.
      destruct (Z.leb_spec 1 (len row0)) as [H3|H3]; [|discriminate].
      destruct (Z.ltb_spec (len row0) 65536) as [H4|H4]; [|discriminate].
      destruct (forallb _ (row0 :: rest)) eqn:F; [|discriminate].
      intros _. split; [lia|]. exists (length row0).
      split; [unfold len in *; lia|]. now apply every_rectangular.
    + intros (Hh & width & Hw & Hrect).
      now rewrite (printRasterBitImage_rect data width).
  - intros ->. reflexivity.
  - intros rest -> Hlen. unfold printRasterBitImage. rewrite !bind_assert.
    pose proof (len_nonneg rest). rewrite len_cons in *.
    replace (1 <=? 1 + len rest) with true by lia.
    replace (1 + len rest <? 65536) with true by lia.
    reflexivity.
  - intros row0 rest -> Hlen Hrow0 Hrect.
    unfold printRasterBitImage. rewrite !bind_assert.
    pose proof (len_nonneg rest). rewrite (len_cons row0 rest) in *.
    replace (1 <=? 1 + len rest) with true by lia.
    replace (1 + len rest <? 65536) with true by lia.
    replace (1 <=? len row0) with true by lia.
    replace (len row0 <? 65536) with true by lia.
    destruct (forallb _ (row0 :: rest)) eqn:F; [|reflexivity].
    exfalso. apply Hrect. apply every_rectangular in F.
    now apply Forall_cons in F as [_ F].
Qed.

Lemma printRasterBitImage_validation_witness :
  printRasterBitImage [] None None = AssertionError "data.length >= 1"
  /\ printRasterBitImage [[]; [1]] None None
     = AssertionError "data[0]!.length >= 1"
  /\ printRasterBitImage [[1; 0]; [1]] None None
     = AssertionError
         "data.every(line => data[0] && line.length == data[0].length)".
Proof.
  split; [|split].
  - apply (proj1 (proj2 (printRasterBitImage_validation [] None None))).
    reflexivity.
  - apply (proj1 (proj2 (proj2
             (printRasterBitImage_validation [[]; [1]] None None))) [[1]]).
    + reflexivity.
    + vm_compute. discriminate.
  - apply (proj2 (proj2 (proj2
             (printRasterBitImage_validation [[1; 0]; [1]] None None)))
             [1; 0] [[1]]).
    + reflexivity.
    + vm_compute. discriminate.
    + vm_compute. split; discriminate.
    + intros F. apply Forall_cons in F as [F _]. discriminate F.
Defined.

(** X14: with scales 1 or 2 (or omitted) an accepted grid is encoded in
    8 + height * ceil(width / 8) elements, all of them bytes. *)
Theorem printRasterBitImage_size (data : list (list Z)) (width : nat)
    (verticalScale horizontalScale : option Z) :
  1 <= len data <= 65535 -> 1 <= Z.of_nat width <= 65535 ->
  rectangular width data ->
  1 <= default 1 verticalScale <= 2 -> 1 <= default 1 horizontalScale <= 2 ->
  exists out : list Z,
    printRasterBitImage data verticalScale horizontalScale = Ok out
    /\ allBytes out
    /\ length out = (8 + length data * ((width + 7) / 8))%nat.
Proof.
  intros Hh Hw Hrect Hvs Hhs. pose proof (ceil8_bounds width) as Hwb.
  eexists. split; [apply (printRasterBitImage_rect data width); assumption|].
  assert (Hw' : 0 <= Z.of_nat ((width + 7) / 8) <= 65535) by lia.
  assert (Hh' : 0 <= len data <= 65535) by lia.
  destruct (byteSplit_bytes _ Hw') as [? ?], (byteSplit_bytes _ Hh') as [? ?].
  split.
  - unfold allBytes.
    repeat (apply Forall_cons; split;
            [first [assumption | unfold isByte, GS; lia]|]).
    apply Forall_join, Forall_fmap, Forall_forall. intros row _.
    change (Forall isByte (rowBytes row)).
    unfold rowBytes. apply Forall_fmap, Forall_forall. intros j _.
    exact (proj1 (packByte_bits row (8 * j))).
  - rewrite !length_app, (join_uniform_length _ _ (rowBytes_uniform _ _ Hrect)).
    rewrite length_fmap. cbn [length]. lia.
Qed.

Lemma printRasterBitImage_size_witness :
  exists out : list Z,
    printRasterBitImage [[1; 0; 1]; [0; 0; 0]] (Some 2) None = Ok out
    /\ allBytes out
    /\ length out = (8 + 2 * ((3 + 7) / 8))%nat.
Proof.
  apply (printRasterBitImage_size [[1; 0; 1]; [0; 0; 0]] 3 (Some 2) None).
  - unfold len. simpl. lia.
  - lia.
  - repeat (apply Forall_cons; split; [reflexivity|]). apply Forall_nil. exact I.
  - simpl. lia.
  - simpl. lia.
Defined.

Lemma byteToBits_packByte (row : list Z) (i : nat) :
  byteToBits (packByte row i) = byteBits row i.
Proof.
  apply list_eq. intros k. unfold byteToBits.
  rewrite list_lookup_fmap.
  destruct (decide (k < 8)%nat) as [Hk|Hk].
  - rewrite lookup_seq_lt by exact Hk.
    cbn [fmap option_fmap option_map Nat.add].
    rewrite byteBits_lookup by exact Hk.
    now rewrite (proj2 (packByte_bits row i) k Hk).
  - rewrite lookup_seq_ge by lia.
    symmetry. apply lookup_ge_None. rewrite byteBits_length. lia.
Qed.

Lemma dotsOf_rowBytes_length (row : list Z) :
  length (dotsOf (rowBytes row)) = (8 * ((length row + 7) / 8))%nat.
Proof.
  unfold dotsOf.
  rewrite (join_uniform_length 8).
  - rewrite length_fmap, rowBytes_length. lia.
  - apply Forall_fmap, Forall_forall. intros b _.
    change (length (byteToBits b) = 8%nat).
    unfold byteToBits. now rewrite length_fmap, length_seq.
Qed.

Lemma dotsOf_rowBytes_lookup (row : list Z) (i : nat) :
  (i < 8 * ((length row + 7) / 8))%nat ->
  dotsOf (rowBytes row) !! i
  = Some (match row !! i with Some x => truthy x | None => false end).
Proof.
  intros Hi. unfold dotsOf.
  assert (U : Forall (fun l => length l = 8%nat) (byteToBits <$> rowBytes row)).
  { apply Forall_fmap, Forall_forall. intros b _.
    change (length (byteToBits b) = 8%nat).
    unfold byteToBits. now rewrite length_fmap, length_seq. }
  pose proof (Nat.div_mod_eq i 8) as Hdm.
  pose proof (Nat.mod_upper_bound i 8) as Hm.
  set (j := (i / 8)%nat) in *. set (k := (i mod 8)%nat) in *.
  assert (Hk : (k < 8)%nat) by lia.
  assert (Hj : (j < (length row + 7) / 8)%nat) by lia.
  replace i with (j * 8 + k)%nat at 1 by lia.
  apply (join_lookup_Some_same_length' _ _ _ _ _ U Hk).
  exists (byteBits row (8 * j)). split.
  - rewrite list_lookup_fmap, rowBytes_lookup by exact Hj.
    cbn [fmap option_fmap option_map]. now rewrite byteToBits_packByte.
  - rewrite byteBits_lookup by exact Hk. now replace (8 * j + k)%nat with i by lia.
Qed.

(** X15: the bytes of a row read back as dots, most significant bit first,
    are the row's printed and blank pixels followed by blank padding up to a
    multiple of 8, and there is one byte for every 8 pixels begun. *)
Theorem packRow_roundtrip (row : list Z) :
  length (packRow row []) = ((length row + 7) / 8)%nat
  /\ take (length row) (dotsOf (packRow row [])) = truthy <$> row
  /\ drop (length row) (dotsOf (packRow row []))
     = replicate (8 * ((length row + 7) / 8) - length row) false.
Proof.
  rewrite packRow_bytes. cbn [app].
  pose proof (ceil8_bounds (length row)) as Hwb.
  pose proof (dotsOf_rowBytes_length row) as Hlen.
  split; [apply rowBytes_length|]. split.
  - apply list_eq. intros i. rewrite list_lookup_fmap.
    destruct (decide (i < length row)%nat) as [Hi|Hi].
    + rewrite lookup_take_lt by exact Hi.
      rewrite dotsOf_rowBytes_lookup by lia.
      destruct (lookup_lt_is_Some_2 row i Hi) as [x Hx]. now rewrite Hx.
    + rewrite lookup_take_ge by lia.
      now rewrite (proj2 (lookup_ge_None row i)) by lia.
  - apply list_eq. intros i. rewrite lookup_drop.
    destruct (decide (i < 8 * ((length row + 7) / 8) - length row)%nat)
      as [Hi|Hi].
    + rewrite dotsOf_rowBytes_lookup by lia.
      rewrite (proj2 (lookup_ge_None row (length row + i))) by lia.
      now rewrite lookup_replicate_2.
    + rewrite (proj2 (lookup_ge_None _ (length row + i))) by lia.
      symmetry. apply lookup_ge_None. rewrite length_replicate. lia.
Qed.

End RasterImageMore.

(** *** From a decoded PNG to the raster command *)
Section ImageConversion.
Import ConvertImage.

Lemma convert_rows (png : PNGWithMetadata) :
  convertImageToRasterBitImage png
  = (fun y : nat => (fun x : nat => cellOf png y x) <$> seq 0 (png_width png))
    <$> seq 0 (png_height png).
Proof.
  unfold convertImageToRasterBitImage. rewrite foldl_push. cbn [app].
  apply list_fmap_ext. intros i y _. now rewrite foldl_push.
Qed.

Lemma cellOf_red (png : PNGWithMetadata) (y x : nat) :
  cellOf png y x = (if redIsZero png y x then 1 else 0).
Proof.
  unfold cellOf, redIsZero.
  destruct (png_data png !! ((y * png_width png + x) * 4)%nat); reflexivity.
Qed.

Lemma convert_lookup (png : PNGWithMetadata) (y : nat) :
  (y < png_height png)%nat ->
  convertImageToRasterBitImage png !! y
  = Some ((fun x : nat => cellOf png y x) <$> seq 0 (png_width png)).
Proof.
  intros Hy. rewrite convert_rows, list_lookup_fmap, lookup_seq_lt by exact Hy.
  reflexivity.
Qed.

Lemma convert_rectangular (png : PNGWithMetadata) :
  rectangular (png_width png) (convertImageToRasterBitImage png).
Proof.
  rewrite convert_rows. apply Forall_fmap, Forall_forall. intros y _.
  change (length ((fun x : nat => cellOf png y x) <$> seq 0 (png_width png))
          = png_width png).
  now rewrite length_fmap, length_seq.
Qed.

Lemma convert_length (png : PNGWithMetadata) :
  length (convertImageToRasterBitImage png) = png_height png.
Proof. rewrite convert_rows. now rewrite length_fmap, length_seq. Qed.

(** X16: the grid made from a PNG has the PNG's height in rows and its width
    in every row, whatever the length of the buffer; the cell of pixel
    (x, y) is 1 when the red byte of the pixel, at (y * width + x) * 4, is 0 or
    beyond the end of the buffer, and 0 otherwise: green, blue and alpha are
    not looked at. *)
Theorem convertImageToRasterBitImage_grid (png : PNGWithMetadata) :
  length (convertImageToRasterBitImage png) = png_height png
  /\ rectangular (png_width png) (convertImageToRasterBitImage png)
  /\ forall y x : nat,
       (y < png_height png)%nat -> (x < png_width png)%nat ->
       exists row : list Z,
         convertImageToRasterBitImage png !! y = Some row
         /\ row !! x = Some (if redIsZero png y x then 1 else 0).
Proof.
  split; [apply convert_length|]. split; [apply convert_rectangular|].
  intros y x Hy Hx. eexists. split; [apply convert_lookup; exact Hy|].
  rewrite list_lookup_fmap, lookup_seq_lt by exact Hx.
  cbn [fmap option_fmap option_map Nat.add]. now rewrite cellOf_red.
Qed.

Lemma convertImageToRasterBitImage_grid_witness :
  exists row : list Z,
    convertImageToRasterBitImage
      {| png_width := 2; png_height := 1;
         png_data := [0; 9; 9; 255; 7; 0; 0; 255] |} !! 0%nat = Some row
    /\ row !! 1%nat = Some 0.
Proof.
  apply (proj2 (proj2 (convertImageToRasterBitImage_grid
                         {| png_width := 2; png_height := 1;
                            png_data := [0; 9; 9; 255; 7; 0; 0; 255] |}))
           0%nat 1%nat); simpl; lia.
Defined.

(** X17: a PNG of width and height in [1,65535] converted and handed to
    GS v 0 is always accepted; the result is the header followed by
    ceil(width / 8) bytes for each row, and bit 7 - k of byte j of row r is
    set exactly when pixel 8j + k is inside the row and its red byte is 0 or
    beyond the end of the buffer. *)
Theorem convert_then_print (png : PNGWithMetadata)
    (verticalScale horizontalScale : option Z) :
  1 <= Z.of_nat (png_height png) <= 65535 ->
  1 <= Z.of_nat (png_width png) <= 65535 ->
  exists a : list Z,
    printRasterBitImage (convertImageToRasterBitImage png)
      verticalScale horizontalScale
    = Ok ([GS; 0x76; 0x30;
           (default 1 verticalScale - 1) * 2 + (default 1 horizontalScale - 1)]
          ++ [Z.of_nat ((png_width png + 7) / 8) mod 256;
              Z.of_nat ((png_width png + 7) / 8) / 256]
          ++ [Z.of_nat (png_height png) mod 256;
              Z.of_nat (png_height png) / 256]
          ++ a)
    /\ length a = (png_height png * ((png_width png + 7) / 8))%nat
    /\ forall r j k : nat,
         (r < png_height png)%nat -> (j < (png_width png + 7) / 8)%nat ->
         (k < 8)%nat ->
         exists byte : Z,
           a !! (r * ((png_width png + 7) / 8) + j)%nat = Some byte
           /\ Z.testbit byte (7 - Z.of_nat k)
              = ((8 * j + k <? png_width png)%nat && redIsZero png r (8 * j + k)).
Proof.
  intros Hh Hw.
  pose proof (convert_rectangular png) as Hrect.
  pose proof (convert_length png) as Hlen.
  exists (mjoin (rowBytes <$> convertImageToRasterBitImage png)).
  split; [|split].
  - rewrite (printRasterBitImage_rect _ (png_width png)); try assumption.
    + unfold len. now rewrite Hlen.
    + unfold len. now rewrite Hlen.
  - rewrite (join_uniform_length _ _ (rowBytes_uniform _ _ Hrect)).
    now rewrite length_fmap, Hlen.
  - intros r j k Hr Hj Hk.
    exists (packByte ((fun x : nat => cellOf png r x) <$> seq 0 (png_width png))
                     (8 * j)).
    split.
    + apply rowBytes_join_lookup; [exact Hrect | | exact Hj].
      apply convert_lookup. exact Hr.
    + rewrite (proj2 (packByte_bits _ (8 * j)) k Hk).
      rewrite list_lookup_fmap.
      destruct (Nat.ltb_spec (8 * j + k) (png_width png)) as [Hin|Hout].
      * rewrite lookup_seq_lt by exact Hin.
        cbn [fmap option_fmap option_map Nat.add andb].
        rewrite cellOf_red. destruct (redIsZero png r (8 * j + k)); reflexivity.
      * rewrite lookup_seq_ge by lia. reflexivity.
Qed.

Lemma convert_then_print_witness :
  exists a : list Z,
    printRasterBitImage
      (convertImageToRasterBitImage
         {| png_width := 2; png_height := 1;
            png_data := [0; 9; 9; 255; 7; 0; 0; 255] |}) None None
    = Ok ([GS; 0x76; 0x30; 0] ++ [1; 0] ++ [1; 0] ++ a)
    /\ length a = 1%nat.
Proof.
  destruct (convert_then_print
              {| png_width := 2; png_height := 1;
                 png_data := [0; 9; 9; 255; 7; 0; 0; 255] |} None None)
    as (a & E & L & _).
  - simpl. lia.
  - simpl. lia.
  - exists a. split; [exact E | exact L].
Defined.

End ImageConversion.

(** *** Reading a barcode command back *)
Section BarcodeReading.
Import Barcodes.

Lemma fromCharCodes_splitToCharCodes (s : string) :
  fromCharCodes (splitToCharCodes s) = s.
Proof.
  unfold fromCharCodes, splitToCharCodes, splitChars.
  change (map charCode (list_ascii_of_string s))
    with (charCode <$> list_ascii_of_string s).
  rewrite <- list_fmap_compose.
  rewrite (list_fmap_ext _ id (list_ascii_of_string s)).
  - rewrite list_fmap_id. apply string_of_list_ascii_of_string.
  - intros i c _. unfold charCode. cbn.
    rewrite Nat2Z.id. apply ascii_nat_embedding.
Qed.

(** X18: whatever printBarcodeUpcA returns is 15 bytes: the three bytes of
    GS k 65, the number of payload bytes, and the payload, from which the
    string that was given is read back character by character. *)
Theorem printBarcodeUpcA_roundtrip (data : string) (out : list Z) :
  printBarcodeUpcA data = Ok out ->
  allBytes out
  /\ length out = 15%nat
  /\ take 4 out = [0x1d; 0x6b; 65; len (drop 4 out)]
  /\ fromCharCodes (drop 4 out) = data.
Proof.
  unfold printBarcodeUpcA. rewrite !bind_assert.
  destruct (Z.eqb_spec (strlen data) 11) as [L|L]; [|discriminate].
  destruct (forallb _ (splitToCharCodes data)) eqn:F; [|discriminate].
  intros E. injection E as <-.
  assert (Hlen : length (splitToCharCodes data) = 11%nat).
  { rewrite splitToCharCodes_length. unfold strlen in L. lia. }
  split; [|split; [|split]].
  - unfold allBytes, len. rewrite Hlen.
    repeat (apply Forall_cons; split; [unfold isByte, GS, k; lia|]).
    assert (F' : Forall (fun c => 48 <= c <= 57) (splitToCharCodes data)).
    { apply (Forall_every _ (fun c => (48 <=? c) && (c <=? 57))); [|exact F].
      intros c. rewrite andb_true_iff, !Z.leb_le. tauto. }
    eapply Forall_impl; [exact F'|].
    intros c Hc. cbv beta in Hc. unfold isByte. lia.
  - cbn [app length]. rewrite Hlen. reflexivity.
  - reflexivity.
  - cbn [app drop]. apply fromCharCodes_splitToCharCodes.
Qed.

Lemma printBarcodeUpcA_roundtrip_witness :
  fromCharCodes
    (drop 4 [0x1d; 0x6b; 65; 11; 49; 50; 51; 52; 53; 54; 55; 56; 57; 48; 49])
  = "12345678901"%string.
Proof.
  apply (printBarcodeUpcA_roundtrip "12345678901"
           [0x1d; 0x6b; 65; 11; 49; 50; 51; 52; 53; 54; 55; 56; 57; 48; 49]).
  reflexivity.
Defined.

End BarcodeReading.

(** *** The USB transport *)
Section UsbTransport.
Import EscPosUSB.

Lemma claimLoop_passed_over (pre rest : list Interface) (i : nat)
    (this : EscPosUSB) (callback : option nat) :
  Forall passedOver pre ->
  exists events : list Event,
    claimLoop (pre ++ rest) i this callback
    = (fst (claimLoop rest (i + length pre) this callback),
       events ++ snd (claimLoop rest (i + length pre) this callback))
    /\ (forall n : nat, Claim n ∈ events <-> (i <= n < i + length pre)%nat)
    /\ (forall ep data cb, Transfer ep data cb ∉ events).
Proof.
  intros Hpre. revert i.
  induction Hpre as [|iface pre Hiface _ IH]; intros i.
  - exists []. cbn [app length]. rewrite Nat.add_0_r.
    split; [now destruct (claimLoop rest i this callback)|].
    split; [intros n; rewrite elem_of_nil; lia|].
    intros ep data cb H. now apply elem_of_nil in H.
  - destruct (IH (S i)) as (events & E & Hclaims & Htransfer).
    cbn [app claimLoop length].
    replace (i + S (length pre))%nat with (S i + length pre)%nat by lia.
    rewrite E.
    destruct (claimThrows iface) as [e|] eqn:Ethrow.
    + exists ([Claim i] ++ invoke callback (Some e) ++ events).
      split; [now rewrite <- !app_assoc|]. split.
      * intros n. rewrite !elem_of_app, list_elem_of_singleton, Hclaims.
        split.
        -- intros [H|[H|H]]; [injection H as ->; lia| |lia].
           destruct callback; cbn in H;
             apply list_elem_of_singleton in H; discriminate H.
        -- intros H. destruct (decide (n = i)) as [->|Hn]; [now left|].
           right. right. lia.
      * intros ep data cb H. rewrite !elem_of_app in H.
        destruct H as [H|[H|H]].
        -- apply list_elem_of_singleton in H. discriminate H.
        -- destruct callback; cbn in H;
             apply list_elem_of_singleton in H; discriminate H.
        -- exact (Htransfer _ _ _ H).
    + destruct Hiface as [Hthrow|Hout]; [contradiction|].
      rewrite Hout.
      exists ([Claim i] ++ events). split; [now rewrite <- !app_assoc|]. split.
      * intros n. rewrite elem_of_app, list_elem_of_singleton, Hclaims.
        split.
        -- intros [H|H]; [injection H as ->; lia | lia].
        -- intros H. destruct (decide (n = i)) as [->|Hn]; [now left|].
           right. lia.
      * intros ep data cb H. rewrite elem_of_app in H. destruct H as [H|H].
        -- apply list_elem_of_singleton in H. discriminate H.
        -- exact (Htransfer _ _ _ H).
Qed.

(** X19: when the device opens and, among its interfaces, the first one that
    can be claimed and has an out endpoint is number |pre|, [open] claims
    the interfaces 0 to |pre| and no later one, throws nothing, keeps the
    device and sets the endpoint to the first out endpoint of that interface;
    a [write] that follows hands its data to this endpoint. *)
Theorem open_selects_first_out_endpoint (this : EscPosUSB) (d : Device)
    (pre post : list Interface) (iface : Interface) (ep : Endpoint)
    (callback : option nat) :
  device this = Some d -> openThrows d = None ->
  interfaces d = Some (pre ++ iface :: post) ->
  Forall passedOver pre ->
  claimThrows iface = None -> findOut (endpoints iface) = Some ep ->
  exists events : list Event,
    open this callback
    = ({| device := Some d; endpoint := Some ep |}, events, None)
    /\ (forall n : nat, Claim n ∈ events <-> (n <= length pre)%nat)
    /\ (forall (data : list Z) (cb : option nat),
          write {| device := Some d; endpoint := Some ep |} data cb
          = [Transfer ep data cb]).
Proof.
  intros Hd Hopen Hifaces Hpre Hclaim Hout.
  destruct (claimLoop_passed_over pre (iface :: post) 0 this callback Hpre)
    as (events & E & Hclaims & _).
  cbn [Nat.add claimLoop fst snd] in E. rewrite Hclaim, Hout in E.
  cbn [fst snd] in E.
  exists ([DeviceOpen]
          ++ (events ++ [Claim (length pre)] ++ invoke callback None) ++ []).
  split; [|split].
  - unfold open. rewrite Hd, Hopen, Hifaces, E, Hd. reflexivity.
  - intros n. rewrite !elem_of_app, !list_elem_of_singleton, Hclaims, elem_of_nil.
    split.
    + intros [H|[[H|[H|H]]|H]];
        [discriminate H | lia | injection H as ->; lia | | contradiction].
      destruct callback; cbn in H;
        [apply list_elem_of_singleton in H; discriminate H
        |now apply elem_of_nil in H].
    + intros H. right. left.
      destruct (decide (n = length pre)) as [->|Hn]; [right; now left|].
      left. lia.
  - intros data cb. reflexivity.
Qed.

Lemma open_selects_first_out_endpoint_witness :
  exists events : list Event,
    open {| device := Some {| deviceId := 1; openThrows := None;
                             interfaces :=
                               Some [ {| claimThrows := Some "LIBUSB_ERROR_BUSY";
                                         endpoints := [] |};
                                      {| claimThrows := None;
                                         endpoints :=
                                           [ {| direction := "in";
                                                endpointAddress := 130 |};
                                             {| direction := "out";
                                                endpointAddress := 1 |} ] |} ];
                             closeThrows := None |};
            endpoint := None |} None
    = ({| device := Some {| deviceId := 1; openThrows := None;
                            interfaces :=
                              Some [ {| claimThrows := Some "LIBUSB_ERROR_BUSY";
                                        endpoints := [] |};
                                     {| claimThrows := None;
                                        endpoints :=
                                          [ {| direction := "in";
                                               endpointAddress := 130 |};
                                            {| direction := "out";
                                               endpointAddress := 1 |} ] |} ];
                            closeThrows := None |};
          endpoint := Some {| direction := "out"; endpointAddress := 1 |} |},
       events, None)
    /\ Claim 1 ∈ events.
Proof.
  destruct (open_selects_first_out_endpoint
              {| device := Some {| deviceId := 1; openThrows := None;
                                   interfaces :=
                                     Some [ {| claimThrows := Some "LIBUSB_ERROR_BUSY";
                                               endpoints := [] |};
                                            {| claimThrows := None;
                                               endpoints :=
                                                 [ {| direction := "in";
                                                      endpointAddress := 130 |};
                                                   {| direction := "out";
                                                      endpointAddress := 1 |} ] |} ];
                                   closeThrows := None |};
                 endpoint := None |}
              {| deviceId := 1; openThrows := None;
                 interfaces :=
                   Some [ {| claimThrows := Some "LIBUSB_ERROR_BUSY";
                             endpoints := [] |};
                          {| claimThrows := None;
                             endpoints :=
                               [ {| direction := "in"; endpointAddress := 130 |};
                                 {| direction := "out"; endpointAddress := 1 |} ] |} ];
                 closeThrows := None |}
              [ {| claimThrows := Some "LIBUSB_ERROR_BUSY"; endpoints := [] |} ]
              []
              {| claimThrows := None;
                 endpoints :=
                   [ {| direction := "in"; endpointAddress := 130 |};
                     {| direction := "out"; endpointAddress := 1 |} ] |}
              {| direction := "out"; endpointAddress := 1 |}
              None)
    as (events & E & Hclaims & _).
  - reflexivity.
  - reflexivity.
  - reflexivity.
  - apply Forall_cons. split; [left; discriminate | apply Forall_nil; exact I].
  - reflexivity.
  - reflexivity.
  - exists events. split; [exact E|]. apply Hclaims. simpl. lia.
Defined.



(** X21: a detached device is forgotten but its endpoint is kept: after the
    detach of the open device, [write] still hands its data to the old
    endpoint, [close] only calls the callback, without closing anything or
    removing the listener, and [open] only reports that no device is set. *)
Theorem detach_keeps_endpoint (this : EscPosUSB) (d : Device) (ep : Endpoint)
    (data : list Z) (callback : option nat) :
  device this = Some d -> endpoint this = Some ep ->
  onDetach this d = {| device := None; endpoint := Some ep |}
  /\ write (onDetach this d) data callback = [Transfer ep data callback]
  /\ close (onDetach this d) callback = invoke callback None
  /\ open (onDetach this d) callback
     = (onDetach this d,
        invoke callback (Some "tried to open device, but device is not set"),
        None).
Proof.
  intros Hd Hep.
  assert (E : onDetach this d = {| device := None; endpoint := Some ep |}).
  { unfold onDetach. rewrite Hd, bool_decide_eq_true_2 by reflexivity.
    now rewrite Hep. }
  rewrite E. repeat split; reflexivity.
Qed.

Lemma detach_keeps_endpoint_witness :
  write (onDetach
           {| device := Some {| deviceId := 1; openThrows := None;
                                interfaces := None; closeThrows := None |};
              endpoint := Some {| direction := "out"; endpointAddress := 1 |} |}
           {| deviceId := 1; openThrows := None;
              interfaces := None; closeThrows := None |})
        [27; 64] None
  = [Transfer {| direction := "out"; endpointAddress := 1 |} [27; 64] None].
Proof.
  apply (detach_keeps_endpoint
           {| device := Some {| deviceId := 1; openThrows := None;
                                interfaces := None; closeThrows := None |};
              endpoint := Some {| direction := "out"; endpointAddress := 1 |} |}
           {| deviceId := 1; openThrows := None;
              interfaces := None; closeThrows := None |}
           {| direction := "out"; endpointAddress := 1 |}
           [27; 64] None); reflexivity.
Defined.

End UsbTransport.
